(** * Patient Management System: a shallow embedding of [main.py]

    The service keeps one JSON document ([patients.json]) that maps patient
    ids to records and exposes handlers that load it, work on the in-memory
    dictionary and possibly save it back.  This development models

    - Python [float]s as IEEE-754 binary64 values ([spec_float] of the
      Standard Library, precision 53, maximal exponent 1024);
    - JSON values as the inductive type [jval], Python dictionaries as
      insertion-ordered association lists with the dictionary operations
      written out;
    - the pydantic models [Patient] and [PatientUpdate] as records, together
      with the (lax mode) validation that constructing a [Patient] from a
      dictionary performs;
    - what is on disk as a missing file, a file that is not JSON, or the
      store that the file holds; [load_data] raises on the first two;
    - each request handler as a function from what is on disk to a
      response, or the exception raised, and what is on disk afterwards;
    - the library functions that the program calls and that are not part of
      it (the string conversions of pydantic, the [pow] of the C library,
      [list.sort]) as the fields of a class, with the laws that are used of
      them; sample requests are run at one instance of it. *)

From Stdlib Require Import ZArith List String Bool Lia.
From Stdlib Require Import Floats.SpecFloat.
From Stdlib Require Import Sorting.Permutation Sorting.Sorted.
Import ListNotations.
Local Open Scope string_scope.
Local Open Scope list_scope.
Local Open Scope Z_scope.

Set Implicit Arguments.

(** ** Python floats *)

Module PyFloat.

Definition prec : Z := 53.
Definition emax : Z := 1024.

Definition float : Type := spec_float.

Definition mul : float -> float -> float := SFmul prec emax.
Definition div : float -> float -> float := SFdiv prec emax.
Definition ltb : float -> float -> bool := SFltb.
Definition leb : float -> float -> bool := SFleb.

(** [a > b] and [a >= b] are [b < a] and [b <= a]. *)
Definition gtb (a b : float) : bool := SFltb b a.

(** The float nearest to the integer [z] ([float(z)]). *)
Definition of_Z (z : Z) : float := binary_normalize prec emax z 0 false.

(** The float nearest to [m * 2^e]. *)
Definition of_bin (m e : Z) : float := binary_normalize prec emax m e false.

(** The float that the decimal literal [n / 100] denotes: the correctly
    rounded quotient, as the parser of float literals produces it. *)
Definition of_hundredths (n : Z) : float :=
  match n with
  | Z0 => S754_zero false
  | Zpos p => SFdiv prec emax (S754_finite false p 0) (S754_finite false 100 0)
  | Zneg p => SFdiv prec emax (S754_finite true p 0) (S754_finite false 100 0)
  end.

Definition is_nan (x : float) : bool :=
  match x with S754_nan => true | _ => false end.

Definition is_zero (x : float) : bool :=
  match x with S754_zero _ => true | _ => false end.

Definition is_finite (x : float) : bool :=
  match x with S754_zero _ | S754_finite _ _ _ => true | _ => false end.

Definition is_infinite (x : float) : bool :=
  match x with S754_infinity _ => true | _ => false end.

(** A float whose sign bit is clear, or NaN. *)
Definition sign_clear (x : float) : Prop :=
  match x with
  | S754_zero s | S754_infinity s | S754_finite s _ _ => s = false
  | S754_nan => True
  end.

(** The float [1.0]. *)
Definition one : float := S754_finite false 4503599627370496 (-52).

(** Exceptions that float arithmetic raises in Python. *)
Inductive arith_error : Type :=
| OverflowError
| ZeroDivisionError.

(** [a / b]: [ZeroDivisionError] on a zero divisor, IEEE division
    otherwise (an overflowing quotient is an infinity, not an error). *)
Definition truediv (a b : float) : float + arith_error :=
  if is_zero b then inr ZeroDivisionError else inl (div a b).

(** Quotient of non-negative [num] by positive [den], rounded to the
    nearest integer, ties to even. *)
Definition div_half_even (num den : Z) : Z :=
  let q := num / den in
  let r := num mod den in
  match 2 * r ?= den with
  | Lt => q
  | Gt => q + 1
  | Eq => if Z.even q then q else q + 1
  end.

(** The exact value of [m * 2^e * 100] rounded to an integer, ties to
    even: the digits of the finite float [m * 2^e] at two decimals. *)
Definition hundredths (m : positive) (e : Z) : Z :=
  match e with
  | Zneg p => div_half_even (Zpos m * 100) (2 ^ Zpos p)
  | _ => Zpos m * 100 * 2 ^ e
  end.

(** [round(x, 2)]: NaN and infinities round to themselves; a finite [x]
    is converted to the correctly rounded decimal with two digits after
    the point (ties to even on the exact binary value) and that decimal
    is converted back to the nearest float.  The sign is kept, so a
    small negative value rounds to [-0.0]. *)
Definition round2 (x : float) : float :=
  match x with
  | S754_finite s m e =>
      match hundredths m e with
      | Zpos n => SFdiv prec emax (S754_finite s n 0) (S754_finite false 100 0)
      | _ => S754_zero s
      end
  | _ => x
  end.

End PyFloat.

Import PyFloat.

(** ** JSON values and Python dictionaries *)

(** What [json.load] produces: [None], booleans, integers, floats (the
    parser also reads [NaN] and [Infinity]), strings, lists and
    dictionaries. *)
#[local] Unset Elimination Schemes.
Inductive jval : Type :=
| JNull
| JBool (b : bool)
| JInt (z : Z)
| JFloat (f : float)
| JStr (s : string)
| JArr (l : list jval)
| JObj (l : list (string * jval)).
#[local] Set Elimination Schemes.

(** A Python [dict] with string keys: the association list of its items in
    iteration (insertion) order. *)
Definition dict (V : Type) : Type := list (string * V).

Section Dict.
Variable V : Type.

(** [d.get(k)] *)
Fixpoint dict_get (k : string) (d : dict V) : option V :=
  match d with
  | [] => None
  | (k', v) :: d' => if String.eqb k k' then Some v else dict_get k d'
  end.

(** [k in d] *)
Definition dict_in (k : string) (d : dict V) : bool :=
  match dict_get k d with Some _ => true | None => false end.

(** [d[k] = v]: an existing key keeps its position and takes the new
    value, a new key goes to the end. *)
Fixpoint dict_set (k : string) (v : V) (d : dict V) : dict V :=
  match d with
  | [] => [(k, v)]
  | (k', v') :: d' =>
      if String.eqb k k' then (k, v) :: d' else (k', v') :: dict_set k v d'
  end.

(** [del d[k]] *)
Definition dict_del (k : string) (d : dict V) : dict V :=
  filter (fun kv => negb (String.eqb k (fst kv))) d.

(** [d.keys()] *)
Definition dict_keys (d : dict V) : list string := map fst d.

(** [for k, v in upd.items(): d[k] = v] *)
Definition dict_update (upd d : dict V) : dict V :=
  fold_left (fun acc kv => dict_set (fst kv) (snd kv) acc) upd d.

(** [d.get(k, default)] *)
Definition dict_get_default (k : string) (default : V) (d : dict V) : V :=
  match dict_get k d with Some v => v | None => default end.

(** The keys of a dictionary are pairwise distinct. *)
Definition dict_wf (d : dict V) : Prop := NoDup (dict_keys d).

End Dict.

(** The contents of [patients.json]: a JSON object whose values are JSON
    objects. *)
Definition record : Type := dict jval.
Definition store : Type := dict record.

(** ** Exceptions and responses *)

Inductive exn : Type :=
| HTTPException (status_code : Z) (detail : string)
| ValidationError (fields : list string)
| ArithmeticError (e : arith_error)
| FileNotFoundError
| JSONDecodeError.

(** The result of an expression that may raise. *)
Definition result (A : Type) : Type := (A + exn)%type.

Definition ret {A : Type} (a : A) : result A := inl a.
Definition raise {A : Type} (e : exn) : result A := inr e.
Definition bind {A B : Type} (m : result A) (f : A -> result B) : result B :=
  match m with
  | inl a => f a
  | inr e => inr e
  end.

Notation "x <- m ;; k" := (bind m (fun x => k))
  (at level 61, m at next level, right associativity).

Definition lift_arith {A : Type} (m : A + arith_error) : result A :=
  match m with
  | inl a => inl a
  | inr e => inr (ArithmeticError e)
  end.

Inductive body : Type :=
| Message (m : string)
| OneRecord (r : record)
| RecordList (l : list record)
| Mapping (d : store).

(** A normal return of a handler: the status code and the JSON body. A
    handler that returns a plain value answers with status 200. *)
Inductive response : Type :=
| Response (status_code : Z) (content : body).

Definition JSONResponse (status_code : Z) (message : string) : response :=
  Response status_code (Message message).

(** ** Stable sorting *)

Section Sorted.
Variables (A K : Type).
Variable key : A -> K.
Variable lt : K -> K -> bool.

(** [x] goes after the elements that are smaller than it and before
    the first that is not: only [<] on keys is consulted. *)
Fixpoint insert (x : A) (l : list A) : list A :=
  match l with
  | [] => [x]
  | y :: l' =>
      if lt (key y) (key x) then y :: insert x l' else x :: y :: l'
  end.

(** The stable sort in ascending order of keys, by insertion.  Where [<]
    orders the keys of a list, this is what every stable sort returns. *)
Definition stable_sort (l : list A) : list A := fold_right insert [] l.

(** [x] may come before [y] in ascending order: the key of [y] is not
    smaller; and in descending order: the key of [x] is not smaller. *)
Definition ascending (x y : A) : Prop := lt (key y) (key x) = false.
Definition descending (x y : A) : Prop := lt (key x) (key y) = false.

(** Every key of the list is one on which [<] is an order. *)
Variable ok : K -> Prop.
Definition all_ok (l : list A) : Prop := Forall (fun x => ok (key x)) l.

(** No element is smaller than the one before it: the list is a single
    ascending run. *)
Fixpoint no_descent (l : list A) : Prop :=
  match l with
  | x :: (y :: _) as l' => lt (key y) (key x) = false /\ no_descent l'
  | _ => True
  end.

(** [<] is a strict weak order on the keys of the list: it is asymmetric
    and its negation is transitive. *)
Definition strict_weak (l : list A) : Prop :=
  (forall x y, In x l -> In y l ->
     lt (key x) (key y) = true -> lt (key y) (key x) = false) /\
  (forall x y z, In x l -> In y l -> In z l ->
     lt (key y) (key x) = false -> lt (key z) (key y) = false ->
     lt (key z) (key x) = false).

End Sorted.

(** ** The libraries under the program *)

(** Three library functions decide what the program computes and are not
    part of it; the development is parametric in them.

    - pydantic's lax-mode conversion of a string to a number.
    - The C library's [pow(x, 2.0)], which [x ** 2] calls on the absolute
      value of a finite [x] other than 0 and 1.  It need not be the
      correctly rounded square; what is used of it is that a square is
      not negative, and that it is zero where the correctly rounded
      square is zero (no square of a float is near the threshold of
      underflow, so that a [pow] which computes a few bits more than it
      returns is zero there).
    - [list.sort], as far as it is specified: the result is a permutation
      of the list; a list that is a single ascending run is returned as it
      is; and where [<] is a strict weak order on the keys the result is
      the stable sort. On other lists (a NaN key among them) the result
      is whatever the implementation does. *)
Class Library : Type := {
  str_as_int : string -> option Z;
  str_as_float : string -> option float;
  pow_2 : float -> float;
  pow_2_sign : forall x, sign_clear (pow_2 x);
  pow_2_underflow : forall x, is_zero (mul x x) = true ->
                    is_zero (pow_2 x) = true;
  list_sort : forall A K : Type, (A -> K) -> (K -> K -> bool) ->
              list A -> list A;
  list_sort_perm :
    forall (A K : Type) (key : A -> K) (lt : K -> K -> bool) (l : list A),
      Permutation l (list_sort key lt l);
  list_sort_run :
    forall (A K : Type) (key : A -> K) (lt : K -> K -> bool) (l : list A),
      no_descent key lt l -> list_sort key lt l = l;
  list_sort_ordered :
    forall (A K : Type) (key : A -> K) (lt : K -> K -> bool) (l : list A),
      strict_weak key lt l -> list_sort key lt l = stable_sort key lt l
}.

(** [x ** 2] on floats ([float_pow] with the exponent 2): NaN and zero
    and the infinities are answered without the C library (NaN, [0.0]
    and [inf]), and so is a base of absolute value 1; any other base
    goes to [pow] by its absolute value, and a result out of range
    raises [OverflowError]. A square that underflows is returned as the
    library returns it, without an error. *)
Definition pow2 {lib : Library} (x : float) : float + arith_error :=
  match x with
  | S754_finite _ _ _ =>
      if SFeqb (SFabs x) one then inl one
      else
        let r := pow_2 (SFabs x) in
        if is_infinite r then inr OverflowError else inl r
  | _ => inl (mul x x)
  end.

(** [sorted(l, key=key, reverse=reverse)]: with [reverse] the list is
    reversed, sorted, and reversed again. *)
Definition sorted {lib : Library} (A K : Type) (key : A -> K)
  (lt : K -> K -> bool) (reverse : bool) (l : list A) : list A :=
  if reverse then rev (list_sort key lt (rev l)) else list_sort key lt l.

(** ** The pydantic models *)

(** [Literal['Male','Female','Other']] *)
Inductive Gender : Type := Male | Female | Other.

Definition gender_str (g : Gender) : string :=
  match g with
  | Male => "Male"
  | Female => "Female"
  | Other => "Other"
  end.

Definition gender_of_str (s : string) : option Gender :=
  if String.eqb s "Male" then Some Male
  else if String.eqb s "Female" then Some Female
  else if String.eqb s "Other" then Some Other
  else None.

(** The float constants of the source. *)
Definition c18_5 : float := of_bin 37 (-1).
Definition c25 : float := of_Z 25.
Definition c30 : float := of_Z 30.
Definition fzero : float := S754_zero false.

(** *** Field validators *)

Section Validators.
Context {lib : Library}.

(** [str]: only a string is accepted. *)
Definition validate_str (v : jval) : option string :=
  match v with JStr s => Some s | _ => None end.

(** A float with no fractional part, as an integer.  (The library also
    refuses integers beyond 64 bits; the only [int] field, [age], refuses
    those by its range.) *)
Definition float_as_int (f : float) : option Z :=
  match f with
  | S754_zero _ => Some 0
  | S754_finite s m (Zneg p) =>
      if Zpos m mod 2 ^ Zpos p =? 0
      then Some (cond_Zopp s (Zpos m / 2 ^ Zpos p))
      else None
  | S754_finite s m e => Some (cond_Zopp s (Zpos m * 2 ^ e))
  | _ => None
  end.

(** [int] in lax mode: an integer, a boolean, an integral float, or a
    string that parses. *)
Definition lax_int (v : jval) : option Z :=
  match v with
  | JInt z => Some z
  | JBool b => Some (if b then 1 else 0)
  | JFloat f => float_as_int f
  | JStr s => str_as_int s
  | _ => None
  end.

(** An integer as a float; one too large for a float is refused. *)
Definition int_as_float (z : Z) : option float :=
  let f := of_Z z in
  if is_infinite f then None else Some f.

(** [float] in lax mode: a float (infinities and NaN included), an
    integer, a boolean, or a string that parses. *)
Definition lax_float (v : jval) : option float :=
  match v with
  | JFloat f => Some f
  | JInt z => int_as_float z
  | JBool b => Some (of_Z (if b then 1 else 0))
  | JStr s => str_as_float s
  | _ => None
  end.

(** [int] with [gt=0, lt=120] *)
Definition validate_age (v : jval) : option Z :=
  match lax_int v with
  | Some z => if (0 <? z) && (z <? 120) then Some z else None
  | None => None
  end.

(** [float] with [gt=0] *)
Definition validate_positive (v : jval) : option float :=
  match lax_float v with
  | Some f => if gtb f fzero then Some f else None
  | None => None
  end.

(** [Literal['Male','Female','Other']] *)
Definition validate_gender (v : jval) : option Gender :=
  match v with JStr s => gender_of_str s | _ => None end.

(** A required field: missing is an error like an invalid value. *)
Definition required {A : Type} (f : jval -> option A) (k : string)
  (d : record) : option A :=
  match dict_get k d with
  | Some v => f v
  | None => None
  end.

(** The name of a field that failed. *)
Definition failed {A : Type} (k : string) (o : option A) : list string :=
  match o with Some _ => [] | None => [k] end.

End Validators.

(** *** [class Patient(BaseModel)] *)

Module Patient.

Record t : Type := mk {
  id : string;
  name : string;
  city : string;
  age : Z;
  gender : Gender;
  height : float;
  weight : float
}.

(** [bmi = round(self.weight/(self.height**2),2)] *)
Definition bmi {lib : Library} (self : t) : result float :=
  h2 <- lift_arith (pow2 (height self)) ;;
  q <- lift_arith (truediv (weight self) h2) ;;
  ret (round2 q).

(** The classification of a bmi value: the [if]/[elif] chain of
    [verdict]. *)
Definition classify (b : float) : string :=
  if ltb b c18_5 then "Underweight"
  else if leb c18_5 b && ltb b c25 then "Normal weight"
  else if leb c25 b && ltb b c30 then "Overweight"
  else "Obese".

(** The property [verdict]; [self.bmi] is pure, so reading it once is
    the same as reading it in every test. *)
Definition verdict {lib : Library} (self : t) : result string :=
  b <- bmi self ;;
  ret (classify b).

(** [self.model_dump()]: the fields in declaration order, then the
    computed fields. *)
Definition model_dump_all {lib : Library} (self : t) : result record :=
  b <- bmi self ;;
  v <- verdict self ;;
  ret [ ("id", JStr (id self));
        ("name", JStr (name self));
        ("city", JStr (city self));
        ("age", JInt (age self));
        ("gender", JStr (gender_str (gender self)));
        ("height", JFloat (height self));
        ("weight", JFloat (weight self));
        ("bmi", JFloat b);
        ("verdict", JStr v) ].

(** [self.model_dump(exclude=...)] *)
Definition model_dump {lib : Library} (exclude : list string) (self : t)
  : result record :=
  d <- model_dump_all self ;;
  ret (filter (fun kv => negb (existsb (String.eqb (fst kv)) exclude)) d).

Section Validate.
Context {lib : Library}.

(** Construction from keyword arguments: every declared field is
    required and validated, keys that are not fields are ignored, and
    the error names the fields that failed. *)
Definition validate (d : record) : result t :=
  let i := required validate_str "id" d in
  let n := required validate_str "name" d in
  let c := required validate_str "city" d in
  let a := required validate_age "age" d in
  let g := required validate_gender "gender" d in
  let h := required validate_positive "height" d in
  let w := required validate_positive "weight" d in
  match i, n, c, a, g, h, w with
  | Some i', Some n', Some c', Some a', Some g', Some h', Some w' =>
      ret (mk i' n' c' a' g' h' w')
  | _, _, _, _, _, _, _ =>
      raise (ValidationError
               (failed "id" i ++ failed "name" n ++ failed "city" c ++
                failed "age" a ++ failed "gender" g ++
                failed "height" h ++ failed "weight" w))
  end.
End Validate.

End Patient.

(** *** [class PatientUpdate(BaseModel)] *)

(** A field of the update model: left out of the request, or given, where
    the given value of an [Optional] field may be [None]. *)
Inductive field (A : Type) : Type :=
| Unset
| Given (v : option A).
Arguments Unset {A}.
Arguments Given {A} v.

Module PatientUpdate.

Record t : Type := mk {
  name : field string;
  city : field string;
  age : field Z;
  gender : field Gender;
  height : field float;
  weight : field float
}.

Definition dump_field {A : Type} (k : string) (to_json : A -> jval)
  (f : field A) : record :=
  match f with
  | Unset => []
  | Given None => [(k, JNull)]
  | Given (Some v) => [(k, to_json v)]
  end.

(** [self.model_dump(exclude_unset=True)]: the fields the request set,
    in declaration order. *)
Definition model_dump_exclude_unset (self : t) : record :=
  dump_field "name" JStr (name self) ++
  dump_field "city" JStr (city self) ++
  dump_field "age" JInt (age self) ++
  dump_field "gender" (fun g => JStr (gender_str g)) (gender self) ++
  dump_field "height" JFloat (height self) ++
  dump_field "weight" JFloat (weight self).

End PatientUpdate.

(** [a < b] between an integer and a float compares the exact values. *)
Definition Z_lt_float (a : Z) (b : float) : bool :=
  match b with
  | S754_nan => false
  | S754_infinity s => negb s
  | S754_zero _ => a <? 0
  | S754_finite s m (Zneg p) => a * 2 ^ Zpos p <? cond_Zopp s (Zpos m)
  | S754_finite s m e => a <? cond_Zopp s (Zpos m * 2 ^ e)
  end.

Definition float_lt_Z (a : float) (b : Z) : bool :=
  match a with
  | S754_nan => false
  | S754_infinity s => s
  | S754_zero _ => 0 <? b
  | S754_finite s m (Zneg p) => cond_Zopp s (Zpos m) <? b * 2 ^ Zpos p
  | S754_finite s m e => cond_Zopp s (Zpos m * 2 ^ e) <? b
  end.

(** [a < b] on the values a sort key can take.  Only numbers are ordered
    here: [sort_patients] sorts by a key under which [model_dump] always
    puts a float. *)
Definition py_lt (a b : jval) : bool :=
  match a, b with
  | JFloat x, JFloat y => ltb x y
  | JInt x, JInt y => x <? y
  | JInt x, JFloat y => Z_lt_float x y
  | JFloat x, JInt y => float_lt_Z x y
  | _, _ => false
  end.

(** ** The record store *)

(** What is at [patients.json] when a request arrives: no file, a file
    that is not a JSON document, or a JSON document, which is taken to be
    an object whose values are objects (the layout of the persisted
    state). *)
Inductive disk : Type :=
| Missing
| Malformed
| Json (data : store).

(** [load_data]: [open] raises when there is no file and [json.load]
    when its text is not JSON. *)
Definition load_data (file : disk) : result store :=
  match file with
  | Missing => raise FileNotFoundError
  | Malformed => raise JSONDecodeError
  | Json data => ret data
  end.

(** [save_data]: the file is created or overwritten with the dump of
    [data]. *)
Definition save_data (data : store) : disk := Json data.

(** A handler is a function of what is on disk before the request; it
    returns what it answers (or raises) and what is on disk after the
    request. *)
Definition outcome : Type := (result response * disk)%type.

(** The store that a disk holds, for statements about a saved file (the
    empty store where there is none). *)
Definition contents (file : disk) : store :=
  match file with
  | Json data => data
  | _ => []
  end.

(** ** The request handlers *)

Definition hello (file : disk) : outcome :=
  (ret (Response 200 (Message "Patient Management System API ")), file).

Definition about (file : disk) : outcome :=
  (ret (Response 200
          (Message "A fully Functional API to manage your patient records.")),
   file).

Definition view (file : disk) : outcome :=
  match load_data file with
  | inr e => (inr e, file)
  | inl data => (ret (Response 200 (Mapping data)), file)
  end.

Definition view_patient (patient_id : string) (file : disk) : outcome :=
  match load_data file with
  | inr e => (inr e, file)
  | inl data =>
      match dict_get patient_id data with
      | Some r => (ret (Response 200 (OneRecord r)), file)
      | None => (raise (HTTPException 404 "Patient not found"), file)
      end
  end.

Definition delete_patient (patient_id : string) (file : disk) : outcome :=
  match load_data file with
  | inr e => (inr e, file)
  | inl data =>
      if negb (dict_in patient_id data) then
        (raise (HTTPException 404 "Patient not found"), file)
      else
        let data := dict_del patient_id data in
        (ret (JSONResponse 200 "Patient deleted successfully"),
         save_data data)
  end.

Definition valid_fields : list string := ["height"; "weight"; "bmi"].

Definition str_in (s : string) (l : list string) : bool :=
  existsb (String.eqb s) l.

(** [lambda x: x.get(sort_by, 0)] *)
Definition sort_key (sort_by : string) (x : record) : jval :=
  dict_get_default sort_by (JInt 0) x.

Section Handlers.
Context {lib : Library}.

Definition create_patient (patient : Patient.t) (file : disk) : outcome :=
  match load_data file with
  | inr e => (inr e, file)
  | inl data =>
      if dict_in (Patient.id patient) data then
        (raise (HTTPException 400 "Patient with this ID already exists"),
         file)
      else
        match Patient.model_dump ["id"] patient with
        | inr e => (inr e, file)
        | inl r =>
            let data := dict_set (Patient.id patient) r data in
            (ret (JSONResponse 201 "Patient created successfully"),
             save_data data)
        end
  end.

(** The loop of [sort_patients]: every record, with the id put in from
    its key, goes through the model and is dumped with its computed
    fields; the first record that fails ends the request. *)
Fixpoint enrich (items : store) : result (list record) :=
  match items with
  | [] => ret []
  | (pid, info) :: rest =>
      let info_with_id := dict_set "id" (JStr pid) info in
      patient_obj <- Patient.validate info_with_id ;;
      d <- Patient.model_dump [] patient_obj ;;
      enriched <- enrich rest ;;
      ret (d :: enriched)
  end.

Definition sort_patients (sort_by order : string) (file : disk) : outcome :=
  match load_data file with
  | inr e => (inr e, file)
  | inl data =>
      if negb (str_in sort_by valid_fields) then
        (raise (HTTPException 400
                  "Invalid field. Select from ['height', 'weight', 'bmi']"),
         file)
      else if negb (str_in order ["asc"; "desc"]) then
        (raise (HTTPException 400
                  "Invalid order. Select between 'asc' and 'desc'"),
         file)
      else
        match enrich data with
        | inr e => (inr e, file)
        | inl enriched_data =>
            let reverse := if String.eqb order "desc" then true else false in
            let sorted_data :=
              sorted (sort_key sort_by) py_lt reverse enriched_data in
            (ret (Response 200 (RecordList sorted_data)), file)
        end
  end.

(** The dictionary that [update_patient] hands to the model: the stored
    record with the fields of the request written over it and the id
    put in. *)
Definition merged_info (patient_id : string)
  (patient_update : PatientUpdate.t) (existing_patient_info : record)
  : record :=
  let updated_patient_info :=
    PatientUpdate.model_dump_exclude_unset patient_update in
  dict_set "id" (JStr patient_id)
    (dict_update updated_patient_info existing_patient_info).

(** [existing_patient_info] is the object stored in [data], so the
    assignments of the loop change [data] as well; nothing is saved
    unless the model accepts the merged record. *)
Definition update_patient (patient_id : string)
  (patient_update : PatientUpdate.t) (file : disk) : outcome :=
  match load_data file with
  | inr e => (inr e, file)
  | inl data =>
      match dict_get patient_id data with
      | None => (raise (HTTPException 404 "Patient not found"), file)
      | Some existing_patient_info =>
          let existing_patient_info :=
            merged_info patient_id patient_update existing_patient_info in
          let data := dict_set patient_id existing_patient_info data in
          match Patient.validate existing_patient_info with
          | inr e => (inr e, file)
          | inl patient_pydantic_obj =>
              match Patient.model_dump ["id"] patient_pydantic_obj with
              | inr e => (inr e, file)
              | inl r =>
                  let data := dict_set patient_id r data in
                  (ret (JSONResponse 200 "Patient updated successfully"),
                   save_data data)
              end
          end
      end
  end.

(** [POST /create]: the framework builds the [Patient] from the JSON
    body before it calls the handler, and answers with the validation
    error when that fails. *)
Definition post_create (body : record) (file : disk) : outcome :=
  match Patient.validate body with
  | inr e => (inr e, file)
  | inl patient => create_patient patient file
  end.

End Handlers.

(** * The reference library *)

(** The library laws hold of the correctly rounded square and of the
    insertion sort; together with a string parser that accepts nothing
    they make the library at which sample requests are run. *)

Section StableSortBasics.
Variables (A K : Type).
Variable key : A -> K.
Variable lt : K -> K -> bool.

Lemma insert_perm (x : A) (l : list A) :
  Permutation (x :: l) (insert key lt x l).
Proof.
  induction l as [|y l IH]; simpl; [reflexivity|].
  destruct (lt (key y) (key x)); [|reflexivity].
  rewrite perm_swap. now constructor.
Qed.

Lemma stable_sort_perm (l : list A) : Permutation l (stable_sort key lt l).
Proof.
  induction l as [|x l IH]; simpl; [constructor|].
  rewrite <- insert_perm. now constructor.
Qed.

(** The insertion sort leaves a single ascending run as it is. *)
Lemma stable_sort_run (l : list A) :
  no_descent key lt l -> stable_sort key lt l = l.
Proof.
  induction l as [|x [|y l] IH]; simpl; intros H; [reflexivity ..|].
  destruct H as [Hxy H]. simpl in IH. rewrite (IH H). simpl.
  now rewrite Hxy.
Qed.

End StableSortBasics.

Lemma binary_round_aux_sign (m e : Z) (l : location) :
  sign_clear (binary_round_aux prec emax false m e l).
Proof.
  unfold binary_round_aux.
  destruct (shr_fexp prec emax m e l) as [mrs e'].
  destruct (shr_fexp prec emax _ e' loc_Exact) as [mrs' e''].
  destruct (shr_m mrs'); simpl; auto.
  destruct (e'' <=? 971); simpl; auto.
Qed.

Lemma mul_self_sign (x : float) : sign_clear (mul x x).
Proof.
  destruct x as [s|s| |s m e]; simpl; auto; try (now destruct s).
  replace (xorb s s) with false by now destruct s.
  apply binary_round_aux_sign.
Qed.

(** The library with the correctly rounded square for [pow], the
    insertion sort for [list.sort], and no conversion of strings to
    numbers. *)
Definition reference : Library :=
  {| str_as_int := fun _ => None;
     str_as_float := fun _ => None;
     pow_2 := fun x => mul x x;
     pow_2_sign := mul_self_sign;
     pow_2_underflow := fun x H => H;
     list_sort := stable_sort;
     list_sort_perm := stable_sort_perm;
     list_sort_run := stable_sort_run;
     list_sort_ordered := fun A K key lt l _ => eq_refl |}.

(** * Vocabulary of the statements *)

(** The keys of a record as the service writes it. *)
Definition stored_keys : list string :=
  ["name"; "city"; "age"; "gender"; "height"; "weight"; "bmi"; "verdict"].

(** The record that [model_dump(exclude=['id'])] yields for a patient whose
    bmi is [b]. *)
Definition stored_record (p : Patient.t) (b : float) : record :=
  [ ("name", JStr (Patient.name p));
    ("city", JStr (Patient.city p));
    ("age", JInt (Patient.age p));
    ("gender", JStr (gender_str (Patient.gender p)));
    ("height", JFloat (Patient.height p));
    ("weight", JFloat (Patient.weight p));
    ("bmi", JFloat b);
    ("verdict", JStr (Patient.classify b)) ].

(** The fields of an accepted patient are the validated entries of the
    dictionary it was built from. *)
Definition validated_from {lib : Library} (d : record) (p : Patient.t) : Prop :=
  required validate_str "id" d = Some (Patient.id p) /\
  required validate_str "name" d = Some (Patient.name p) /\
  required validate_str "city" d = Some (Patient.city p) /\
  required validate_age "age" d = Some (Patient.age p) /\
  required validate_gender "gender" d = Some (Patient.gender p) /\
  required validate_positive "height" d = Some (Patient.height p) /\
  required validate_positive "weight" d = Some (Patient.weight p).

(** What a field of the request contributes to the merged dictionary. *)
Definition field_json {A : Type} (to_json : A -> jval) (f : field A)
  : option jval :=
  match f with
  | Unset => None
  | Given None => Some JNull
  | Given (Some v) => Some (to_json v)
  end.

(** The entry of a merged dictionary under a key: the value of the request
    when the request sets the field, the stored one otherwise. *)
Definition patched {A : Type} (k : string) (to_json : A -> jval)
  (f : field A) (old : record) : option jval :=
  match field_json to_json f with
  | Some v => Some v
  | None => dict_get k old
  end.

(** The merged dictionary, key by key: the id is the path parameter, each
    field of the update model is the request's value when the request
    sets it and the stored value otherwise, and every other key is as
    stored. *)
Definition merges (patient_id : string) (u : PatientUpdate.t)
  (old m : record) : Prop :=
  dict_get "id" m = Some (JStr patient_id) /\
  dict_get "name" m = patched "name" JStr (PatientUpdate.name u) old /\
  dict_get "city" m = patched "city" JStr (PatientUpdate.city u) old /\
  dict_get "age" m = patched "age" JInt (PatientUpdate.age u) old /\
  dict_get "gender" m =
    patched "gender" (fun g => JStr (gender_str g)) (PatientUpdate.gender u) old /\
  dict_get "height" m = patched "height" JFloat (PatientUpdate.height u) old /\
  dict_get "weight" m = patched "weight" JFloat (PatientUpdate.weight u) old /\
  forall k,
    ~ In k ["id"; "name"; "city"; "age"; "gender"; "height"; "weight"] ->
    dict_get k m = dict_get k old.

(** The JSON type that the model dumps under each stored field. *)
Definition native_type (k : string) (v : jval) : bool :=
  match v with
  | JStr _ => str_in k ["name"; "city"; "gender"]
  | JInt _ => String.eqb k "age"
  | JFloat _ => str_in k ["height"; "weight"]
  | _ => false
  end.

(** A patient, the store that holds her alone, and a request that changes
    her city and weight. *)
Definition ananya : Patient.t :=
  Patient.mk "P001" "Ananya" "Pune" 28 Female (of_hundredths 165) (of_Z 60).

(** The float [1e-200]. *)
Definition tiny : float := of_bin 6894565328877484 (-717).

(** A patient whose height is [1e-200]: positive, so the model accepts
    it, with a square that underflows to zero; and the JSON body of the
    request that creates him. *)
Definition ravi : Patient.t :=
  Patient.mk "P002" "Ravi" "Delhi" 40 Male tiny (of_Z 70).

Definition ravi_body : record :=
  [ ("id", JStr "P002"); ("name", JStr "Ravi"); ("city", JStr "Delhi");
    ("age", JInt 40); ("gender", JStr "Male");
    ("height", JFloat tiny); ("weight", JInt 70) ].

Definition one_patient : store :=
  [ ("P001", [ ("name", JStr "Ananya"); ("city", JStr "Pune");
               ("age", JInt 28); ("gender", JStr "Female");
               ("height", JFloat (of_hundredths 165));
               ("weight", JFloat (of_Z 60)) ]) ].

Definition move_to_mumbai : PatientUpdate.t :=
  PatientUpdate.mk Unset (Given (Some "Mumbai")) Unset Unset Unset
    (Given (Some (of_Z 62))).

(** A store all of whose records have the keys that the service writes. *)
Definition all_shaped (file : store) : Prop :=
  Forall (fun kv => dict_keys (snd kv) = stored_keys) file.

(** The body of a request whose name and city are empty strings. *)
Definition nameless_body : record :=
  [ ("id", JStr "P003"); ("name", JStr ""); ("city", JStr "");
    ("age", JInt 35); ("gender", JStr "Other");
    ("height", JFloat (of_hundredths 170)); ("weight", JFloat (of_Z 65)) ].

(** Floats that are not NaN are ordered like their ranks, ordered
    lexicographically: the class (negative infinity, negative, zero,
    positive, positive infinity), then exponent and mantissa, both
    negated for a negative float. *)
Definition rank (x : float) : Z * Z * Z :=
  match x with
  | S754_nan => (0, 0, 0)
  | S754_zero _ => (0, 0, 0)
  | S754_infinity s => (if s then -2 else 2, 0, 0)
  | S754_finite s m e => if s then (-1, - e, Zneg m) else (1, e, Zpos m)
  end.

(** The comparison of triples in lexicographic order. *)
Definition lex3 (a b : Z * Z * Z) : comparison :=
  let '(c1, e1, m1) := a in
  let '(c2, e2, m2) := b in
  match c1 ?= c2 with
  | Eq => match e1 ?= e2 with
          | Eq => m1 ?= m2
          | r => r
          end
  | r => r
  end.

(** A key that is a number: a float that is not NaN. *)
Definition number_key (k : jval) : Prop :=
  exists f, k = JFloat f /\ is_nan f = false.

(** [x == k] on float keys. *)
Definition key_equal (k x : jval) : bool :=
  match k, x with
  | JFloat a, JFloat b => SFeqb b a
  | _, _ => false
  end.

(** The record that the loop of [sort_patients] appends for an item of
    the store: the dump, with the computed fields, of the patient that
    the model builds from the stored record and the id. *)
Definition enriched_from {lib : Library} (item : string * record)
  (r : record) : Prop :=
  exists p b,
    Patient.validate (dict_set "id" (JStr (fst item)) (snd item)) = inl p /\
    Patient.id p = fst item /\
    Patient.bmi p = inl b /\
    r = ("id", JStr (fst item)) :: stored_record p b.

(** Three patients, the first two with the same height and weight. *)
Definition three_patients : store :=
  [ ("P001", [ ("name", JStr "Ananya"); ("city", JStr "Pune");
               ("age", JInt 28); ("gender", JStr "Female");
               ("height", JFloat (of_hundredths 165)); ("weight", JInt 60) ]);
    ("P002", [ ("name", JStr "Meera"); ("city", JStr "Kochi");
               ("age", JInt 31); ("gender", JStr "Female");
               ("height", JFloat (of_hundredths 165)); ("weight", JInt 60) ]);
    ("P003", [ ("name", JStr "Kabir"); ("city", JStr "Jaipur");
               ("age", JInt 45); ("gender", JStr "Male");
               ("height", JFloat (of_hundredths 170)); ("weight", JInt 90) ]) ].

(** The ids of a list of enriched records. *)
Definition ids_of (o : outcome) : list (option jval) :=
  match fst o with
  | inl (Response _ (RecordList l)) => map (dict_get "id") l
  | _ => []
  end.

(** ** Vocabulary of the further properties *)

(** The names of the fields of [Patient], and of those that are stored. *)
Definition patient_fields : list string :=
  ["id"; "name"; "city"; "age"; "gender"; "height"; "weight"].

Definition update_fields : list string :=
  ["name"; "city"; "age"; "gender"; "height"; "weight"].

(** Whether the model accepts what a dictionary has under a field. *)
Definition field_ok {lib : Library} (k : string) (d : record) : bool :=
  let some {A : Type} (o : option A) :=
    match o with Some _ => true | None => false end in
  if String.eqb k "id" then some (required validate_str "id" d)
  else if String.eqb k "name" then some (required validate_str "name" d)
  else if String.eqb k "city" then some (required validate_str "city" d)
  else if String.eqb k "age" then some (required validate_age "age" d)
  else if String.eqb k "gender" then some (required validate_gender "gender" d)
  else if String.eqb k "height" then
    some (required validate_positive "height" d)
  else if String.eqb k "weight" then
    some (required validate_positive "weight" d)
  else true.

(** The constraints of the numeric fields: [gt=0, lt=120] for the age and
    [gt=0] for height and weight. *)
Definition valid_patient (p : Patient.t) : Prop :=
  0 < Patient.age p < 120 /\
  gtb (Patient.height p) fzero = true /\
  gtb (Patient.weight p) fzero = true.

(** The patient [p] under another id. *)
Definition with_id (patient_id : string) (p : Patient.t) : Patient.t :=
  Patient.mk patient_id (Patient.name p) (Patient.city p) (Patient.age p)
    (Patient.gender p) (Patient.height p) (Patient.weight p).

(** A record as [create_patient] and [update_patient] write it: the dump
    of a patient that satisfies the constraints, with its bmi. *)
Definition service_written {lib : Library} (r : record) : Prop :=
  exists p b,
    valid_patient p /\ Patient.bmi p = inl b /\ r = stored_record p b.

(** A store all of whose records were written by the service. *)
Definition service_store {lib : Library} (file : store) : Prop :=
  Forall (fun kv => service_written (snd kv)) file.

(** The update that a request with the empty body [{}] carries. *)
Definition nothing_set : PatientUpdate.t :=
  PatientUpdate.mk Unset Unset Unset Unset Unset Unset.

(** An update whose name is an explicit [null]. *)
Definition null_name : PatientUpdate.t :=
  PatientUpdate.mk (Given None) Unset Unset Unset Unset Unset.




(** The four classes in the order of their thresholds. *)
Definition class_index (verdict : string) : Z :=
  if String.eqb verdict "Underweight" then 0
  else if String.eqb verdict "Normal weight" then 1
  else if String.eqb verdict "Overweight" then 2
  else 3.

(** The store that holds [ananya] as the service writes her. *)
Definition ananya_stored : store :=
  contents (snd (@create_patient reference ananya (Json []))).

(** Exceptions of [load_data]. *)
Definition is_load_error (e : exn) : Prop :=
  e = FileNotFoundError \/ e = JSONDecodeError.

(** A store in which the second of three patients has an infinite height
    and an infinite weight (the JSON parser reads [Infinity], and both
    are greater than zero): the bmis are 10, NaN and 5. *)
Definition nan_store : store :=
  [ ("A", [ ("name", JStr "Asha"); ("city", JStr "Agra"); ("age", JInt 30);
            ("gender", JStr "Female");
            ("height", JFloat one); ("weight", JFloat (of_Z 10)) ]);
    ("B", [ ("name", JStr "Bala"); ("city", JStr "Bhopal"); ("age", JInt 31);
            ("gender", JStr "Male");
            ("height", JFloat (S754_infinity false));
            ("weight", JFloat (S754_infinity false)) ]);
    ("C", [ ("name", JStr "Chitra"); ("city", JStr "Cuttack");
            ("age", JInt 32); ("gender", JStr "Female");
            ("height", JFloat one); ("weight", JFloat (of_Z 5)) ]) ].

(** The records of [nan_store] as [sort_patients] enriches them, in the
    order of the store. *)
Definition nan_answer : list record :=
  [ [ ("id", JStr "A"); ("name", JStr "Asha"); ("city", JStr "Agra");
      ("age", JInt 30); ("gender", JStr "Female");
      ("height", JFloat one); ("weight", JFloat (of_Z 10));
      ("bmi", JFloat (of_Z 10)); ("verdict", JStr "Underweight") ];
    [ ("id", JStr "B"); ("name", JStr "Bala"); ("city", JStr "Bhopal");
      ("age", JInt 31); ("gender", JStr "Male");
      ("height", JFloat (S754_infinity false));
      ("weight", JFloat (S754_infinity false));
      ("bmi", JFloat S754_nan); ("verdict", JStr "Obese") ];
    [ ("id", JStr "C"); ("name", JStr "Chitra"); ("city", JStr "Cuttack");
      ("age", JInt 32); ("gender", JStr "Female");
      ("height", JFloat one); ("weight", JFloat (of_Z 5));
      ("bmi", JFloat (of_Z 5)); ("verdict", JStr "Underweight") ] ].

(** A store whose only record has the height [1e-200]. *)
Definition tiny_store : store :=
  [ ("P002", [ ("name", JStr "Ravi"); ("city", JStr "Delhi");
               ("age", JInt 40); ("gender", JStr "Male");
               ("height", JFloat tiny); ("weight", JInt 70) ]) ].

(** A store whose record has an integer weight, as a JSON file written
    by hand has it, and one whose record lacks the city. *)
Definition integer_weight : store :=
  [ ("P001", [ ("name", JStr "Ananya"); ("city", JStr "Pune");
               ("age", JInt 28); ("gender", JStr "Female");
               ("height", JFloat (of_hundredths 165));
               ("weight", JInt 60) ]) ].

Definition no_city : store :=
  [ ("P001", [ ("name", JStr "Ananya"); ("age", JInt 28);
               ("gender", JStr "Female");
               ("height", JFloat (of_hundredths 165));
               ("weight", JFloat (of_Z 60)) ]) ].

(** An update that changes the city only, and one that sets the height
    to [1e-200]. *)
Definition city_only : PatientUpdate.t :=
  PatientUpdate.mk Unset (Given (Some "Mumbai")) Unset Unset Unset Unset.

Definition shrink : PatientUpdate.t :=
  PatientUpdate.mk Unset Unset Unset Unset (Given (Some tiny)) Unset.

(** An update that changes the weight only. *)
Definition heavier : PatientUpdate.t :=
  PatientUpdate.mk Unset Unset Unset Unset Unset (Given (Some (of_Z 62))).

(** [r] may come before [s] in the answer of a sort by [sort_by]: both
    have a float under [sort_by], and the one of [r] is at most the one
    of [s], or at least for the descending order. *)
Definition in_order (sort_by : string) (desc : bool) (r s : record) : Prop :=
  exists f g,
    dict_get sort_by r = Some (JFloat f) /\
    dict_get sort_by s = Some (JFloat g) /\
    (if desc then leb g f else leb f g) = true.

(** The record has under [sort_by] a float equal to [k]. *)
Definition value_is (sort_by : string) (k : float) (r : record) : bool :=
  match dict_get sort_by r with
  | Some (JFloat f) => SFeqb f k
  | _ => false
  end.

(** No record has NaN under [sort_by]. *)
Definition no_nan (sort_by : string) (l : list record) : Prop :=
  Forall (fun r => forall f, dict_get sort_by r = Some (JFloat f) ->
                             is_nan f = false) l.

(** The records of [three_patients] as [sort_patients] enriches them. *)
Definition three_enriched : list record :=
  [ [ ("id", JStr "P001"); ("name", JStr "Ananya"); ("city", JStr "Pune");
      ("age", JInt 28); ("gender", JStr "Female");
      ("height", JFloat (of_hundredths 165)); ("weight", JFloat (of_Z 60));
      ("bmi", JFloat (of_hundredths 2204));
      ("verdict", JStr "Normal weight") ];
    [ ("id", JStr "P002"); ("name", JStr "Meera"); ("city", JStr "Kochi");
      ("age", JInt 31); ("gender", JStr "Female");
      ("height", JFloat (of_hundredths 165)); ("weight", JFloat (of_Z 60));
      ("bmi", JFloat (of_hundredths 2204));
      ("verdict", JStr "Normal weight") ];
    [ ("id", JStr "P003"); ("name", JStr "Kabir"); ("city", JStr "Jaipur");
      ("age", JInt 45); ("gender", JStr "Male");
      ("height", JFloat (of_hundredths 170)); ("weight", JFloat (of_Z 90));
      ("bmi", JFloat (of_hundredths 3114)); ("verdict", JStr "Obese") ] ].

(** * Properties *)

(** ** Rounding *)

Example round2_0125 : round2 (of_bin 1 (-3)) = of_hundredths 12.
Proof. vm_compute. reflexivity. Qed.

Example round2_0375 : round2 (of_bin 3 (-3)) = of_hundredths 38.
Proof. vm_compute. reflexivity. Qed.

Example round2_2675 : round2 (of_hundredths 267 ) = of_hundredths 267.
Proof. vm_compute. reflexivity. Qed.

(** ** Dictionaries *)

Section DictFacts.
Variable V : Type.
Implicit Types (d : dict V) (k : string) (v : V).

Lemma dict_in_get k d :
  dict_in k d = true <-> exists v, dict_get k d = Some v.
Proof.
  unfold dict_in. destruct (dict_get k d) as [v|].
  - split; [eauto | reflexivity].
  - split; [discriminate | intros [v Hv]; discriminate].
Qed.

Lemma dict_notin_get k d : dict_in k d = false <-> dict_get k d = None.
Proof.
  unfold dict_in. destruct (dict_get k d); split; congruence.
Qed.

Lemma dict_get_set_same k v d : dict_get k (dict_set k v d) = Some v.
Proof.
  induction d as [|[k' v'] d IH]; simpl.
  - now rewrite String.eqb_refl.
  - destruct (String.eqb k k') eqn:E; simpl.
    + now rewrite String.eqb_refl.
    + now rewrite E.
Qed.

Lemma dict_get_set_other k k' v d :
  k' <> k -> dict_get k' (dict_set k v d) = dict_get k' d.
Proof.
  intros Hne. induction d as [|[k0 v0] d IH]; simpl.
  - destruct (String.eqb_spec k' k); congruence.
  - destruct (String.eqb_spec k k0) as [->|Hk]; simpl.
    + destruct (String.eqb_spec k' k0); congruence.
    + destruct (String.eqb_spec k' k0); congruence.
Qed.

Lemma dict_get_del_same k d : dict_get k (dict_del k d) = None.
Proof.
  unfold dict_del. induction d as [|[k0 v0] d IH]; simpl; auto.
  destruct (String.eqb_spec k k0) as [->|Hk]; simpl; auto.
  destruct (String.eqb_spec k k0); congruence.
Qed.

Lemma dict_get_del_other k k' d :
  k' <> k -> dict_get k' (dict_del k d) = dict_get k' d.
Proof.
  intros Hne. unfold dict_del.
  induction d as [|[k0 v0] d IH]; simpl; auto.
  destruct (String.eqb_spec k k0) as [->|Hk]; simpl.
  - destruct (String.eqb_spec k' k0); congruence.
  - destruct (String.eqb_spec k' k0); congruence.
Qed.

Lemma dict_get_in_keys k d :
  dict_get k d <> None <-> In k (dict_keys d).
Proof.
  induction d as [|[k0 v0] d IH]; simpl.
  - split; [congruence | tauto].
  - destruct (String.eqb_spec k k0) as [->|Hk].
    + split; [auto | congruence].
    + rewrite IH. split; [auto | intros [H|H]; congruence].
Qed.

(** Assigning to a key that is present keeps the keys and their order;
    assigning to a new key appends it. *)
Lemma dict_keys_set k v d :
  dict_keys (dict_set k v d) =
  if dict_in k d then dict_keys d else dict_keys d ++ [k].
Proof.
  unfold dict_in. induction d as [|[k0 v0] d IH]; simpl; auto.
  destruct (String.eqb_spec k k0) as [->|Hk]; simpl; auto.
  rewrite IH. now destruct (dict_get k d).
Qed.

Lemma dict_keys_del k d :
  dict_keys (dict_del k d) =
  filter (fun k' => negb (String.eqb k k')) (dict_keys d).
Proof.
  unfold dict_del, dict_keys.
  induction d as [|[k0 v0] d IH]; simpl; auto.
  destruct (String.eqb k k0); simpl; now rewrite IH.
Qed.

Lemma dict_wf_set k v d : dict_wf d -> dict_wf (dict_set k v d).
Proof.
  unfold dict_wf. intros Hwf. rewrite dict_keys_set.
  destruct (dict_in k d) eqn:E; auto.
  apply dict_notin_get in E.
  apply NoDup_app; [assumption | repeat constructor; simpl; tauto |].
  intros x Hx [<-|[]]. apply dict_get_in_keys in Hx. congruence.
Qed.

Lemma dict_wf_del k d : dict_wf d -> dict_wf (dict_del k d).
Proof.
  unfold dict_wf. rewrite dict_keys_del. apply NoDup_filter.
Qed.

End DictFacts.

Lemma dict_set_set (V : Type) (k : string) (v v' : V) (d : dict V) :
  dict_set k v (dict_set k v' d) = dict_set k v d.
Proof.
  induction d as [|[k0 v0] d IH]; simpl.
  - now rewrite String.eqb_refl.
  - destruct (String.eqb k k0) eqn:E; simpl.
    + now rewrite String.eqb_refl.
    + now rewrite E, IH.
Qed.

(** Assigning to a key changes the value at that position only. *)
Lemma dict_set_Forall (V : Type) (P : string * V -> Prop) (k : string)
  (v : V) (d : dict V) :
  Forall P d -> P (k, v) -> Forall P (dict_set k v d).
Proof.
  intros Hd Hk. induction Hd as [|[k0 v0] d H0 Hd IH]; simpl.
  - auto.
  - destruct (String.eqb k k0); auto.
Qed.

(** ** What the model dumps *)

Section DumpFacts.
Context {lib : Library}.

Lemma model_dump_all_bmi (p : Patient.t) (b : float) :
  Patient.bmi p = inl b ->
  Patient.model_dump_all p = inl (("id", JStr (Patient.id p)) :: stored_record p b).
Proof.
  intros Hb. unfold Patient.model_dump_all, Patient.verdict.
  rewrite Hb. reflexivity.
Qed.

Lemma model_dump_all_raises (p : Patient.t) (e : exn) :
  Patient.bmi p = inr e -> Patient.model_dump_all p = inr e.
Proof.
  intros Hb. unfold Patient.model_dump_all. now rewrite Hb.
Qed.

Lemma model_dump_exclude_id_bmi (p : Patient.t) (b : float) :
  Patient.bmi p = inl b ->
  Patient.model_dump ["id"] p = inl (stored_record p b).
Proof.
  intros Hb. unfold Patient.model_dump.
  rewrite (model_dump_all_bmi p Hb). reflexivity.
Qed.

Lemma model_dump_nothing_excluded_bmi (p : Patient.t) (b : float) :
  Patient.bmi p = inl b ->
  Patient.model_dump [] p = inl (("id", JStr (Patient.id p)) :: stored_record p b).
Proof.
  intros Hb. unfold Patient.model_dump.
  rewrite (model_dump_all_bmi p Hb). reflexivity.
Qed.

(** A dump succeeds exactly when the bmi can be computed. *)
Lemma model_dump_exclude_id_inv (p : Patient.t) (r : record) :
  Patient.model_dump ["id"] p = inl r ->
  exists b, Patient.bmi p = inl b /\ r = stored_record p b.
Proof.
  intros H. destruct (Patient.bmi p) as [b|e] eqn:Hb.
  - exists b. rewrite (model_dump_exclude_id_bmi p Hb) in H.
    split; congruence.
  - unfold Patient.model_dump in H.
    rewrite (model_dump_all_raises p Hb) in H. discriminate.
Qed.

Lemma model_dump_nothing_excluded_inv (p : Patient.t) (r : record) :
  Patient.model_dump [] p = inl r ->
  exists b, Patient.bmi p = inl b /\
            r = ("id", JStr (Patient.id p)) :: stored_record p b.
Proof.
  intros H. destruct (Patient.bmi p) as [b|e] eqn:Hb.
  - exists b. rewrite (model_dump_nothing_excluded_bmi p Hb) in H.
    split; congruence.
  - unfold Patient.model_dump in H.
    rewrite (model_dump_all_raises p Hb) in H. discriminate.
Qed.

Lemma stored_record_keys (p : Patient.t) (b : float) :
  dict_keys (stored_record p b) = stored_keys.
Proof. reflexivity. Qed.

End DumpFacts.

(** ** The handlers that write *)

Section WriteFacts.
Context {lib : Library}.

Lemma create_patient_duplicate (patient : Patient.t) (file : store) :
  dict_in (Patient.id patient) file = true ->
  create_patient patient (Json file) =
  (raise (HTTPException 400 "Patient with this ID already exists"),
   Json file).
Proof.
  intros Hin. unfold create_patient, load_data, ret. now rewrite Hin.
Qed.

Lemma create_patient_fresh (patient : Patient.t) (file : store) (b : float) :
  dict_in (Patient.id patient) file = false ->
  Patient.bmi patient = inl b ->
  create_patient patient (Json file) =
  (ret (JSONResponse 201 "Patient created successfully"),
   Json (dict_set (Patient.id patient) (stored_record patient b) file)).
Proof.
  intros Hin Hb. unfold create_patient, load_data, save_data, ret.
  now rewrite Hin, (model_dump_exclude_id_bmi patient Hb).
Qed.

Lemma create_patient_fresh_raises (patient : Patient.t) (file : store) (e : exn) :
  dict_in (Patient.id patient) file = false ->
  Patient.bmi patient = inr e ->
  create_patient patient (Json file) = (inr e, Json file).
Proof.
  intros Hin Hb. unfold create_patient, load_data, ret, Patient.model_dump.
  now rewrite Hin, (model_dump_all_raises patient Hb).
Qed.

(** A request that is answered normally by [create_patient] found the id
    free, computed the bmi and saved the store with the new record. *)
Lemma create_patient_inv (patient : Patient.t) (file file' : store)
  (resp : response) :
  create_patient patient (Json file) = (inl resp, Json file') ->
  exists b,
    dict_in (Patient.id patient) file = false /\
    Patient.bmi patient = inl b /\
    resp = JSONResponse 201 "Patient created successfully" /\
    file' = dict_set (Patient.id patient) (stored_record patient b) file.
Proof.
  intros H. destruct (dict_in (Patient.id patient) file) eqn:Hin.
  - rewrite (create_patient_duplicate _ _ Hin) in H. discriminate.
  - destruct (Patient.bmi patient) as [b|e] eqn:Hb.
    + rewrite (create_patient_fresh _ _ Hin Hb) in H.
      exists b. inversion H. auto.
    + rewrite (create_patient_fresh_raises _ _ Hin Hb) in H. discriminate.
Qed.

Lemma delete_patient_absent (patient_id : string) (file : store) :
  dict_in patient_id file = false ->
  delete_patient patient_id (Json file) =
  (raise (HTTPException 404 "Patient not found"), Json file).
Proof.
  intros Hin. unfold delete_patient, load_data, ret. now rewrite Hin.
Qed.

Lemma delete_patient_present (patient_id : string) (file : store) :
  dict_in patient_id file = true ->
  delete_patient patient_id (Json file) =
  (ret (JSONResponse 200 "Patient deleted successfully"),
   Json (dict_del patient_id file)).
Proof.
  intros Hin. unfold delete_patient, load_data, save_data, ret. now rewrite Hin.
Qed.

End WriteFacts.

(** ** Validation *)

Section ValidationFacts.
Context {lib : Library}.

Lemma validate_accepts (d : record) (p : Patient.t) :
  Patient.validate d = inl p <-> validated_from d p.
Proof.
  unfold Patient.validate, validated_from, ret, raise.
  destruct (required validate_str "id" d) as [i|];
    destruct (required validate_str "name" d) as [n|];
    destruct (required validate_str "city" d) as [c|];
    destruct (required validate_age "age" d) as [a|];
    destruct (required validate_gender "gender" d) as [g|];
    destruct (required validate_positive "height" d) as [h|];
    destruct (required validate_positive "weight" d) as [w|];
    destruct p as [pi pn pc pa pg ph pw]; simpl;
    (split; [intros H; try discriminate H; inversion H; subst; tauto
            | intros (H1 & H2 & H3 & H4 & H5 & H6 & H7);
              try discriminate; congruence]).
Qed.

(** A dictionary is rejected exactly when some field fails, and the
    error names the failing fields. *)
Lemma validate_rejects (d : record) (e : exn) :
  Patient.validate d = inr e ->
  exists fs, e = ValidationError fs /\ fs <> [] /\
    incl fs ["id"; "name"; "city"; "age"; "gender"; "height"; "weight"].
Proof.
  unfold Patient.validate, ret, raise.
  destruct (required validate_str "id" d) as [i|];
    destruct (required validate_str "name" d) as [n|];
    destruct (required validate_str "city" d) as [c|];
    destruct (required validate_age "age" d) as [a|];
    destruct (required validate_gender "gender" d) as [g|];
    destruct (required validate_positive "height" d) as [h|];
    destruct (required validate_positive "weight" d) as [w|];
    simpl; intros H; try discriminate H; inversion H;
    (eexists; split; [reflexivity | split; [discriminate |]]);
    intros x Hx; simpl in *; tauto.
Qed.

Lemma gender_of_str_gender_str (g : Gender) :
  gender_of_str (gender_str g) = Some g.
Proof. destruct g; reflexivity. Qed.

Lemma gender_str_of_str (s : string) (g : Gender) :
  gender_of_str s = Some g -> gender_str g = s.
Proof.
  unfold gender_of_str.
  destruct (String.eqb_spec s "Male") as [->|_]; [intros [= <-]; reflexivity|].
  destruct (String.eqb_spec s "Female") as [->|_]; [intros [= <-]; reflexivity|].
  destruct (String.eqb_spec s "Other") as [->|_]; [intros [= <-]; reflexivity|].
  discriminate.
Qed.

Lemma validate_age_range (v : jval) (z : Z) :
  validate_age v = Some z -> 0 < z < 120.
Proof.
  unfold validate_age. destruct (lax_int v) as [z'|]; [|discriminate].
  destruct (0 <? z') eqn:E1; destruct (z' <? 120) eqn:E2; simpl;
    try discriminate.
  intros [= <-]. apply Z.ltb_lt in E1, E2. lia.
Qed.

Lemma validate_positive_gt (v : jval) (f : float) :
  validate_positive v = Some f -> gtb f fzero = true.
Proof.
  unfold validate_positive. destruct (lax_float v) as [f'|]; [|discriminate].
  destruct (gtb f' fzero) eqn:E; [|discriminate].
  now intros [= <-].
Qed.

End ValidationFacts.

(** ** Merging an update into a stored record *)

Lemma dict_update_app (V : Type) (a b d : dict V) :
  dict_update (a ++ b) d = dict_update b (dict_update a d).
Proof. unfold dict_update. apply fold_left_app. Qed.

Lemma dict_get_update_field (A : Type) (k k' : string) (to_json : A -> jval)
  (f : field A) (d : record) :
  dict_get k' (dict_update (PatientUpdate.dump_field k to_json f) d) =
  match field_json to_json f with
  | Some v => if String.eqb k' k then Some v else dict_get k' d
  | None => dict_get k' d
  end.
Proof.
  destruct f as [|[v|]]; simpl; auto;
    destruct (String.eqb_spec k' k) as [->|Hne];
    auto using dict_get_set_same, dict_get_set_other.
Qed.

Section MergeFacts.
Context {lib : Library}.
Variables (patient_id : string) (u : PatientUpdate.t) (old : record).

Let upd := PatientUpdate.model_dump_exclude_unset u.

(** The loop of [update_patient] looks at the six fields of the update
    model, each under its own key. *)
Lemma dict_get_merge (k : string) :
  dict_get k (dict_update upd old) =
  if String.eqb k "name" then patched "name" JStr (PatientUpdate.name u) old
  else if String.eqb k "city" then patched "city" JStr (PatientUpdate.city u) old
  else if String.eqb k "age" then patched "age" JInt (PatientUpdate.age u) old
  else if String.eqb k "gender" then
    patched "gender" (fun g => JStr (gender_str g)) (PatientUpdate.gender u) old
  else if String.eqb k "height" then
    patched "height" JFloat (PatientUpdate.height u) old
  else if String.eqb k "weight" then
    patched "weight" JFloat (PatientUpdate.weight u) old
  else dict_get k old.
Proof.
  unfold upd, PatientUpdate.model_dump_exclude_unset.
  rewrite !dict_update_app, !dict_get_update_field. unfold patched.
  repeat match goal with
    | |- context [String.eqb k ?c] =>
        destruct (String.eqb_spec k c) as [->|?]; simpl
    end;
  repeat match goal with
    | |- context [field_json ?j ?f] => destruct (field_json j f); simpl
    end;
  reflexivity.
Qed.

Lemma dict_get_merged_info (k : string) :
  dict_get k (merged_info patient_id u old) =
  if String.eqb k "id" then Some (JStr patient_id)
  else dict_get k (dict_update upd old).
Proof.
  unfold merged_info. fold upd.
  destruct (String.eqb_spec k "id") as [->|Hne].
  - apply dict_get_set_same.
  - now apply dict_get_set_other.
Qed.

End MergeFacts.

Lemma merged_info_merges (patient_id : string) (u : PatientUpdate.t)
  (old : record) :
  merges patient_id u old (merged_info patient_id u old).
Proof.
  unfold merges.
  repeat split;
    try (rewrite dict_get_merged_info, dict_get_merge; reflexivity).
  intros k Hk. rewrite dict_get_merged_info, dict_get_merge.
  destruct (String.eqb_spec k "id"); [subst; exfalso; apply Hk; simpl; auto 10|].
  destruct (String.eqb_spec k "name"); [subst; exfalso; apply Hk; simpl; auto 10|].
  destruct (String.eqb_spec k "city"); [subst; exfalso; apply Hk; simpl; auto 10|].
  destruct (String.eqb_spec k "age"); [subst; exfalso; apply Hk; simpl; auto 10|].
  destruct (String.eqb_spec k "gender"); [subst; exfalso; apply Hk; simpl; auto 10|].
  destruct (String.eqb_spec k "height"); [subst; exfalso; apply Hk; simpl; auto 10|].
  destruct (String.eqb_spec k "weight"); [subst; exfalso; apply Hk; simpl; auto 10|].
  reflexivity.
Qed.

(** ** [update_patient], case by case *)

Section UpdateFacts.
Context {lib : Library}.
Variables (patient_id : string) (u : PatientUpdate.t) (file : store).

Lemma update_patient_absent :
  dict_get patient_id file = None ->
  update_patient patient_id u (Json file) =
  (raise (HTTPException 404 "Patient not found"), Json file).
Proof.
  intros H. unfold update_patient, load_data, ret. now rewrite H.
Qed.

Lemma update_patient_rejected (old : record) (e : exn) :
  dict_get patient_id file = Some old ->
  Patient.validate (merged_info patient_id u old) = inr e ->
  update_patient patient_id u (Json file) = (inr e, Json file).
Proof.
  intros H Hv. unfold update_patient, load_data, ret. now rewrite H, Hv.
Qed.

Lemma update_patient_no_bmi (old : record) (p : Patient.t) (e : exn) :
  dict_get patient_id file = Some old ->
  Patient.validate (merged_info patient_id u old) = inl p ->
  Patient.bmi p = inr e ->
  update_patient patient_id u (Json file) = (inr e, Json file).
Proof.
  intros H Hv Hb.
  unfold update_patient, load_data, ret, Patient.model_dump.
  now rewrite H, Hv, (model_dump_all_raises p Hb).
Qed.

Lemma update_patient_stored (old : record) (p : Patient.t) (b : float) :
  dict_get patient_id file = Some old ->
  Patient.validate (merged_info patient_id u old) = inl p ->
  Patient.bmi p = inl b ->
  update_patient patient_id u (Json file) =
  (ret (JSONResponse 200 "Patient updated successfully"),
   Json (dict_set patient_id (stored_record p b) file)).
Proof.
  intros H Hv Hb. unfold update_patient, load_data, save_data, ret.
  rewrite H, Hv, (model_dump_exclude_id_bmi p Hb).
  now rewrite dict_set_set.
Qed.

(** A request that [update_patient] answers normally found the id,
    had its merged record accepted and its bmi computed, and replaced
    the stored record by the dump of the accepted patient. *)
Lemma update_patient_inv (resp : response) (file' : store) :
  update_patient patient_id u (Json file) = (inl resp, Json file') ->
  exists old p b,
    dict_get patient_id file = Some old /\
    Patient.validate (merged_info patient_id u old) = inl p /\
    Patient.bmi p = inl b /\
    resp = JSONResponse 200 "Patient updated successfully" /\
    file' = dict_set patient_id (stored_record p b) file.
Proof.
  intros H.
  destruct (dict_get patient_id file) as [old|] eqn:Hg.
  2:{ rewrite (update_patient_absent Hg) in H. discriminate. }
  destruct (Patient.validate (merged_info patient_id u old)) as [p|e] eqn:Hv.
  2:{ rewrite (update_patient_rejected Hg Hv) in H. discriminate. }
  destruct (Patient.bmi p) as [b|e] eqn:Hb.
  2:{ rewrite (update_patient_no_bmi Hg Hv Hb) in H. discriminate. }
  rewrite (update_patient_stored Hg Hv Hb) in H.
  exists old, p, b. inversion H. auto.
Qed.

End UpdateFacts.

(** ** Values that pass through the model unchanged *)

Lemma required_get (A : Type) (f : jval -> option A) (k : string)
  (d : record) (v : jval) :
  dict_get k d = Some v -> required f k d = f v.
Proof. intros H. unfold required. now rewrite H. Qed.

Section NativeFacts.
Context {lib : Library}.

Ltac key_cases k :=
  repeat match goal with
    | H : context [String.eqb k ?c] |- _ =>
        destruct (String.eqb_spec k c); [subst k | simpl in H]
    end; try discriminate.

(** A value of the native type that the model accepts for a field is
    dumped back as it is. *)
Lemma validated_native (m : record) (p : Patient.t) (b : float)
  (k : string) (v : jval) :
  validated_from m p ->
  dict_get k m = Some v ->
  native_type k v = true ->
  dict_get k (stored_record p b) = Some v.
Proof.
  intros (Hi & Hn & Hc & Ha & Hg & Hh & Hw) Hk Hnat.
  destruct v as [|bo|z|f|s|l|l]; simpl in Hnat; try discriminate;
    unfold str_in in Hnat; simpl in Hnat; key_cases k.
  - rewrite (required_get _ _ _ Hk) in Ha. simpl in *.
    unfold validate_age in Ha. simpl in Ha.
    destruct ((0 <? z) && (z <? 120)); congruence.
  - rewrite (required_get _ _ _ Hk) in Hh. simpl in *.
    unfold validate_positive in Hh. simpl in Hh.
    destruct (gtb f fzero); congruence.
  - rewrite (required_get _ _ _ Hk) in Hw. simpl in *.
    unfold validate_positive in Hw. simpl in Hw.
    destruct (gtb f fzero); congruence.
  - rewrite (required_get _ _ _ Hk) in Hn. simpl in *. congruence.
  - rewrite (required_get _ _ _ Hk) in Hc. simpl in *. congruence.
  - rewrite (required_get _ _ _ Hk) in Hg. simpl in *.
    apply gender_str_of_str in Hg. congruence.
Qed.

(** [None] is accepted for no field. *)
Lemma validated_not_null (m : record) (p : Patient.t) (k : string) :
  validated_from m p ->
  In k ["name"; "city"; "age"; "gender"; "height"; "weight"] ->
  dict_get k m <> Some JNull.
Proof.
  intros (Hi & Hn & Hc & Ha & Hg & Hh & Hw) Hin Hk.
  simpl in Hin.
  destruct Hin as [<-|[<-|[<-|[<-|[<-|[<-|[]]]]]]];
    [ rewrite (required_get _ _ _ Hk) in Hn
    | rewrite (required_get _ _ _ Hk) in Hc
    | rewrite (required_get _ _ _ Hk) in Ha
    | rewrite (required_get _ _ _ Hk) in Hg
    | rewrite (required_get _ _ _ Hk) in Hh
    | rewrite (required_get _ _ _ Hk) in Hw ]; discriminate.
Qed.

End NativeFacts.

(** ** Delete *)

(** C8: deleting an id that is not in the store raises 404 and leaves the
    file as it was; deleting an id that is in the store answers 200 and
    saves a store in which that key is gone and every other key has the
    value it had, the remaining keys in their old order. *)
Theorem delete_patient_frame (patient_id : string) (file : store) :
  (dict_in patient_id file = false ->
   delete_patient patient_id (Json file) =
   (raise (HTTPException 404 "Patient not found"), Json file)) /\
  (dict_in patient_id file = true ->
   exists file',
     delete_patient patient_id (Json file) =
     (ret (JSONResponse 200 "Patient deleted successfully"), Json file') /\
     dict_get patient_id file' = None /\
     (forall k, k <> patient_id -> dict_get k file' = dict_get k file) /\
     dict_keys file' =
     filter (fun k => negb (String.eqb patient_id k)) (dict_keys file)).
Proof.
  split.
  - apply delete_patient_absent.
  - intros Hin. exists (dict_del patient_id file).
    split; [now apply delete_patient_present|].
    split; [apply dict_get_del_same|].
    split; [intros k Hk; now apply dict_get_del_other|].
    apply dict_keys_del.
Qed.

Lemma delete_patient_frame_witness :
  delete_patient "P009" (Json one_patient) =
  (raise (HTTPException 404 "Patient not found"), Json one_patient) /\
  exists file',
    delete_patient "P001" (Json one_patient) =
    (ret (JSONResponse 200 "Patient deleted successfully"), Json file') /\
    dict_get "P001" file' = None /\
    (forall k, k <> "P001" -> dict_get k file' = dict_get k one_patient) /\
    dict_keys file' =
    filter (fun k => negb (String.eqb "P001" k)) (dict_keys one_patient).
Proof.
  split.
  - apply (proj1 (delete_patient_frame "P009" one_patient)). reflexivity.
  - apply (proj2 (delete_patient_frame "P001" one_patient)). reflexivity.
Defined.

(** ** Frame of create and update *)

(** C10: when [create_patient] or [update_patient] answers normally, every
    key other than the one written has the value it had; create appends
    its key to the keys of the store and update keeps the keys as they
    are. *)
Theorem write_frame {lib : Library} (file file' : store) (resp : response) :
  (forall patient,
     create_patient patient (Json file) = (inl resp, Json file') ->
     (forall k, k <> Patient.id patient -> dict_get k file' = dict_get k file) /\
     dict_keys file' = dict_keys file ++ [Patient.id patient]) /\
  (forall patient_id patient_update,
     update_patient patient_id patient_update (Json file) =
     (inl resp, Json file') ->
     (forall k, k <> patient_id -> dict_get k file' = dict_get k file) /\
     dict_keys file' = dict_keys file).
Proof.
  split.
  - intros patient H.
    destruct (create_patient_inv _ _ H) as (b & Hin & Hb & _ & ->).
    split.
    + intros k Hk. now apply dict_get_set_other.
    + rewrite dict_keys_set. now rewrite Hin.
  - intros patient_id u H.
    destruct (update_patient_inv _ _ _ H) as (old & p & b & Hg & _ & _ & _ & ->).
    split.
    + intros k Hk. now apply dict_get_set_other.
    + rewrite dict_keys_set.
      assert (Hin : dict_in patient_id file = true)
        by (apply dict_in_get; eauto).
      now rewrite Hin.
Qed.

Lemma write_frame_witness :
  ((forall k, k <> "P001" ->
      dict_get k ananya_stored = dict_get k ([] : store)) /\
   dict_keys ananya_stored = [] ++ ["P001"]) /\
  ((forall k, k <> "P001" ->
      dict_get k
        (contents (snd (@update_patient reference "P001" move_to_mumbai
                          (Json one_patient)))) =
      dict_get k one_patient) /\
   dict_keys
     (contents (snd (@update_patient reference "P001" move_to_mumbai
                       (Json one_patient)))) =
   dict_keys one_patient).
Proof.
  split.
  - apply (proj1 (@write_frame reference [] ananya_stored
                    (JSONResponse 201 "Patient created successfully")) ananya).
    vm_compute. reflexivity.
  - apply (proj2 (@write_frame reference one_patient
                    (contents (snd (@update_patient reference "P001"
                                      move_to_mumbai (Json one_patient))))
                    (JSONResponse 200 "Patient updated successfully"))
             "P001" move_to_mumbai).
    vm_compute. reflexivity.
Defined.

(** ** Create *)

(** The two branches of [create_patient] on which the store and the answer
    are as C6 says: a duplicate id raises 400 and nothing is saved; a new
    id whose bmi can be computed is inserted and answered with 201. *)
Lemma create_patient_conflict_or_insert {lib : Library} (patient : Patient.t)
  (file : store) :
  (dict_in (Patient.id patient) file = true ->
   create_patient patient (Json file) =
   (raise (HTTPException 400 "Patient with this ID already exists"),
    Json file)) /\
  (dict_in (Patient.id patient) file = false ->
   forall b, Patient.bmi patient = inl b ->
   create_patient patient (Json file) =
   (ret (JSONResponse 201 "Patient created successfully"),
    Json (dict_set (Patient.id patient) (stored_record patient b) file)) /\
   dict_get (Patient.id patient)
     (dict_set (Patient.id patient) (stored_record patient b) file) =
   Some (stored_record patient b)).
Proof.
  split.
  - apply create_patient_duplicate.
  - intros Hin b Hb. split.
    + now apply create_patient_fresh.
    + apply dict_get_set_same.
Qed.

(** Where the square of the height of a patient underflows to zero, the
    bmi raises [ZeroDivisionError]. *)
Lemma bmi_underflow {lib : Library} (p : Patient.t) :
  is_finite (Patient.height p) = true ->
  is_zero (Patient.height p) = false ->
  SFeqb (SFabs (Patient.height p)) one = false ->
  is_zero (mul (SFabs (Patient.height p)) (SFabs (Patient.height p))) =
  true ->
  Patient.bmi p = inr (ArithmeticError ZeroDivisionError).
Proof.
  intros Hf Hz H1 Hp. apply pow_2_underflow in Hp.
  unfold Patient.bmi, pow2.
  destruct (Patient.height p) as [s|s| |s m e]; try discriminate.
  rewrite H1.
  destruct (pow_2 (SFabs (S754_finite s m e))) as [s'|s'| |s' m' e'];
    try discriminate.
  reflexivity.
Qed.

(** The bmi of [ravi], whose height is [1e-200]. *)
Lemma bmi_ravi {lib : Library} :
  Patient.bmi ravi = inr (ArithmeticError ZeroDivisionError).
Proof. apply bmi_underflow; reflexivity. Qed.

(** C6, at a request the code does not answer with 201.  The body
    [ravi_body] is accepted by the model (its height, [1e-200], is
    positive), its id is not a key of the empty store, and
    [create_patient] raises [ZeroDivisionError] while it dumps the
    patient, the square of the height being zero; nothing is inserted. *)
Theorem create_patient_zero_division {lib : Library} :
  Patient.validate ravi_body = inl ravi /\
  dict_in (Patient.id ravi) ([] : store) = false /\
  create_patient ravi (Json []) =
  (inr (ArithmeticError ZeroDivisionError), Json []) /\
  post_create ravi_body (Json []) =
  (inr (ArithmeticError ZeroDivisionError), Json []).
Proof.
  assert (Hv : Patient.validate ravi_body = inl ravi) by reflexivity.
  pose proof bmi_ravi as Hb.
  assert (Hc : create_patient ravi (Json []) =
               (inr (ArithmeticError ZeroDivisionError), Json []))
    by (now apply create_patient_fresh_raises).
  split; [exact Hv|]. split; [reflexivity|]. split; [exact Hc|].
  unfold post_create. now rewrite Hv.
Qed.

(** ** Create, then view *)

(** The round trip where the bmi can be computed: the record that
    [view_patient] returns after [create_patient] has the fields of the
    patient, the bmi and the verdict, and no id. *)
Lemma create_then_view {lib : Library} (patient : Patient.t) (file : store)
  (b : float) :
  dict_in (Patient.id patient) file = false ->
  Patient.bmi patient = inl b ->
  let file' := snd (create_patient patient (Json file)) in
  view_patient (Patient.id patient) file' =
  (ret (Response 200 (OneRecord (stored_record patient b))), file') /\
  dict_get "id" (stored_record patient b) = None.
Proof.
  intros Hin Hb. rewrite (create_patient_fresh _ _ Hin Hb). simpl.
  split; [|reflexivity].
  unfold view_patient, load_data, ret. now rewrite dict_get_set_same.
Qed.

(** C9, at a request where the round trip fails.  The valid body
    [ravi_body], whose id is not in the store, is not created (the dump
    raises [ZeroDivisionError], the square of the height [1e-200] being
    zero), and viewing its id afterwards raises 404. *)
Theorem create_then_view_not_found {lib : Library} :
  Patient.validate ravi_body = inl ravi /\
  dict_in "P002" one_patient = false /\
  fst (post_create ravi_body (Json one_patient)) =
  inr (ArithmeticError ZeroDivisionError) /\
  view_patient "P002" (snd (post_create ravi_body (Json one_patient))) =
  (raise (HTTPException 404 "Patient not found"), Json one_patient).
Proof.
  assert (Hv : Patient.validate ravi_body = inl ravi) by reflexivity.
  pose proof bmi_ravi as Hb.
  assert (Hc : post_create ravi_body (Json one_patient) =
               (inr (ArithmeticError ZeroDivisionError), Json one_patient)).
  { unfold post_create. rewrite Hv.
    now apply create_patient_fresh_raises. }
  rewrite Hc. split; [exact Hv|]. split; [reflexivity|].
  split; reflexivity.
Qed.

(** ** The shape of stored records *)

Section ShapeFacts.
Context {lib : Library}.

Lemma create_patient_shaped (patient : Patient.t) (file : store) :
  all_shaped file ->
  all_shaped (contents (snd (create_patient patient (Json file)))).
Proof.
  intros Hs. unfold create_patient, load_data, save_data, ret.
  destruct (dict_in (Patient.id patient) file); [exact Hs|].
  destruct (Patient.model_dump ["id"] patient) as [r|e] eqn:Hd; [|exact Hs].
  destruct (model_dump_exclude_id_inv _ Hd) as (b & _ & ->).
  simpl. apply dict_set_Forall; [exact Hs | reflexivity].
Qed.

Lemma update_patient_shaped (patient_id : string) (u : PatientUpdate.t)
  (file : store) :
  all_shaped file ->
  all_shaped (contents (snd (update_patient patient_id u (Json file)))).
Proof.
  intros Hs. unfold update_patient, load_data, save_data, ret.
  destruct (dict_get patient_id file) as [old|]; [|exact Hs].
  destruct (Patient.validate _) as [p|e']; [|exact Hs].
  destruct (Patient.model_dump _ p) as [r|e'] eqn:Hd; [|exact Hs].
  destruct (model_dump_exclude_id_inv _ Hd) as (b & _ & ->).
  simpl. rewrite dict_set_set.
  apply dict_set_Forall; [exact Hs | reflexivity].
Qed.

Lemma delete_patient_shaped (patient_id : string) (file : store) :
  all_shaped file ->
  all_shaped (contents (snd (delete_patient patient_id (Json file)))).
Proof.
  intros Hs. unfold delete_patient, load_data, save_data, ret.
  destruct (negb (dict_in patient_id file)); [exact Hs|].
  simpl. unfold dict_del, all_shaped in *.
  rewrite Forall_forall in *. intros kv Hkv.
  apply filter_In in Hkv. now apply Hs.
Qed.

End ShapeFacts.

(** C1, as the code has it: the record that [create_patient] or
    [update_patient] saves under the patient id has exactly the keys name,
    city, age, gender, height, weight, bmi and verdict, in this order, and
    no id; and create, update and delete keep a store in which every
    record has these keys in that state. *)
Theorem stored_value_shape {lib : Library} (file : store) :
  (forall patient resp file',
     create_patient patient (Json file) = (inl resp, Json file') ->
     exists r, dict_get (Patient.id patient) file' = Some r /\
               dict_keys r = stored_keys /\ dict_in "id" r = false) /\
  (forall patient_id patient_update resp file',
     update_patient patient_id patient_update (Json file) =
     (inl resp, Json file') ->
     exists r, dict_get patient_id file' = Some r /\
               dict_keys r = stored_keys /\ dict_in "id" r = false) /\
  (all_shaped file ->
   (forall patient,
      all_shaped (contents (snd (create_patient patient (Json file))))) /\
   (forall patient_id patient_update,
      all_shaped
        (contents (snd (update_patient patient_id patient_update
                          (Json file))))) /\
   (forall patient_id,
      all_shaped (contents (snd (delete_patient patient_id (Json file)))))).
Proof.
  split; [|split].
  - intros patient resp file' H.
    destruct (create_patient_inv _ _ H) as (b & _ & _ & _ & ->).
    exists (stored_record patient b).
    split; [apply dict_get_set_same | split; reflexivity].
  - intros patient_id u resp file' H.
    destruct (update_patient_inv _ _ _ H) as (old & p & b & _ & _ & _ & _ & ->).
    exists (stored_record p b).
    split; [apply dict_get_set_same | split; reflexivity].
  - intros Hs.
    split; [|split]; intros;
      auto using create_patient_shaped, update_patient_shaped,
        delete_patient_shaped.
Qed.

Lemma stored_value_shape_witness :
  (exists r, dict_get "P001" ananya_stored = Some r /\
             dict_keys r = stored_keys /\ dict_in "id" r = false) /\
  (exists r,
     dict_get "P001"
       (contents (snd (@update_patient reference "P001" move_to_mumbai
                         (Json one_patient)))) = Some r /\
     dict_keys r = stored_keys /\ dict_in "id" r = false) /\
  all_shaped (contents (snd (delete_patient "P001" (Json ananya_stored)))).
Proof.
  split; [|split].
  - apply (proj1 (@stored_value_shape reference []) ananya
             (JSONResponse 201 "Patient created successfully")).
    vm_compute. reflexivity.
  - apply (proj1 (proj2 (@stored_value_shape reference one_patient))
             "P001" move_to_mumbai
             (JSONResponse 200 "Patient updated successfully")).
    vm_compute. reflexivity.
  - apply (proj2 (proj2 (@stored_value_shape reference ananya_stored))).
    vm_compute. repeat constructor.
Defined.

(** C1 as stated fails: the record that [create_patient] saves for
    [ananya] has the keys bmi and verdict besides the six fields. *)
Lemma stored_value_has_bmi_and_verdict :
  exists r,
    @create_patient reference ananya (Json []) =
    (ret (JSONResponse 201 "Patient created successfully"),
     Json [("P001", r)]) /\
    dict_in "bmi" r = true /\ dict_in "verdict" r = true /\
    dict_keys r <> ["name"; "city"; "age"; "gender"; "height"; "weight"].
Proof.
  eexists. split; [vm_compute; reflexivity|].
  split; [reflexivity|]. split; [reflexivity|]. discriminate.
Qed.

(** ** Sort: the parameters *)

Lemma str_in_In (s : string) (l : list string) : str_in s l = true <-> In s l.
Proof.
  unfold str_in. rewrite existsb_exists. split.
  - intros (x & Hx & E). apply String.eqb_eq in E. now subst.
  - intros H. exists s. split; [assumption | apply String.eqb_refl].
Qed.

Lemma str_notin_In (s : string) (l : list string) :
  str_in s l = false <-> ~ In s l.
Proof.
  rewrite <- str_in_In. destruct (str_in s l); split; congruence.
Qed.

(** C7: a [sort_by] outside height, weight and bmi raises 400, and so does
    an [order] outside asc and desc, whether [sort_by] is valid or not; the
    file is as it was. *)
Theorem sort_patients_bad_request {lib : Library} (sort_by order : string)
  (file : store) :
  (~ In sort_by ["height"; "weight"; "bmi"] ->
   sort_patients sort_by order (Json file) =
   (raise (HTTPException 400
             "Invalid field. Select from ['height', 'weight', 'bmi']"),
    Json file)) /\
  (~ In order ["asc"; "desc"] ->
   exists detail,
     sort_patients sort_by order (Json file) =
     (raise (HTTPException 400 detail), Json file)).
Proof.
  split.
  - intros H. apply str_notin_In in H.
    unfold sort_patients, load_data, ret, valid_fields. now rewrite H.
  - intros H. apply str_notin_In in H.
    unfold sort_patients, load_data, ret. rewrite H.
    destruct (str_in sort_by valid_fields); simpl; eauto.
Qed.

Lemma sort_patients_bad_request_witness :
  @sort_patients reference "age" "asc" (Json one_patient) =
  (raise (HTTPException 400
            "Invalid field. Select from ['height', 'weight', 'bmi']"),
   Json one_patient) /\
  (exists detail,
     @sort_patients reference "bmi" "up" (Json one_patient) =
     (raise (HTTPException 400 detail), Json one_patient)).
Proof.
  split.
  - apply (proj1 (@sort_patients_bad_request reference "age" "asc" one_patient)).
    simpl. intros [H|[H|[H|[]]]]; discriminate.
  - apply (proj2 (@sort_patients_bad_request reference "bmi" "up" one_patient)).
    simpl. intros [H|[H|[]]]; discriminate.
Defined.

(** ** Name and city *)

Lemma required_set_same (A : Type) (f : jval -> option A) (k : string)
  (v : jval) (d : record) :
  required f k (dict_set k v d) = f v.
Proof. unfold required. now rewrite dict_get_set_same. Qed.

Lemma required_set_other (A : Type) (f : jval -> option A) (k k' : string)
  (v : jval) (d : record) :
  k <> k' -> required f k (dict_set k' v d) = required f k d.
Proof. intros H. unfold required. now rewrite dict_get_set_other. Qed.

Lemma required_str (k : string) (d : record) (s : string) :
  required validate_str k d = Some s <-> dict_get k d = Some (JStr s).
Proof.
  unfold required. destruct (dict_get k d) as [[| | | |s'| |]|]; simpl;
    split; congruence.
Qed.

(** C3, as the code has it: name and city are required strings and
    nothing more.  An accepted patient has as name and city the strings of
    the dictionary; a dictionary whose name or city is missing or is not a
    string is rejected with a [ValidationError]; and an accepted
    dictionary stays accepted when its name or its city is replaced by any
    string, the empty one included. *)
Theorem name_city_any_string {lib : Library} (d : record) :
  (forall p, Patient.validate d = inl p ->
     dict_get "name" d = Some (JStr (Patient.name p)) /\
     dict_get "city" d = Some (JStr (Patient.city p))) /\
  ((forall s, dict_get "name" d <> Some (JStr s)) \/
   (forall s, dict_get "city" d <> Some (JStr s)) ->
   exists fields, Patient.validate d = inr (ValidationError fields)) /\
  (forall p s, Patient.validate d = inl p ->
     Patient.validate (dict_set "name" (JStr s) d) =
     inl (Patient.mk (Patient.id p) s (Patient.city p) (Patient.age p)
            (Patient.gender p) (Patient.height p) (Patient.weight p)) /\
     Patient.validate (dict_set "city" (JStr s) d) =
     inl (Patient.mk (Patient.id p) (Patient.name p) s (Patient.age p)
            (Patient.gender p) (Patient.height p) (Patient.weight p))).
Proof.
  assert (Hacc : forall p, Patient.validate d = inl p ->
            dict_get "name" d = Some (JStr (Patient.name p)) /\
            dict_get "city" d = Some (JStr (Patient.city p))).
  { intros p H. apply validate_accepts in H.
    destruct H as (_ & Hn & Hc & _). now rewrite <- !required_str. }
  split; [exact Hacc | split].
  - intros Hbad.
    destruct (Patient.validate d) as [p|e] eqn:Hv.
    + destruct (Hacc p eq_refl) as [Hn Hc].
      destruct Hbad as [Hbad|Hbad]; [now apply Hbad in Hn | now apply Hbad in Hc].
    + destruct (validate_rejects _ Hv) as (fs & -> & _). eauto.
  - intros p s H. apply validate_accepts in H.
    destruct H as (Hi & Hn & Hc & Ha & Hg & Hh & Hw).
    split; apply validate_accepts; unfold validated_from; simpl;
      rewrite ?required_set_same;
      rewrite ?required_set_other by discriminate; auto 10.
Qed.

Lemma name_city_any_string_witness :
  (dict_get "name" nameless_body = Some (JStr "") /\
   dict_get "city" nameless_body = Some (JStr "")) /\
  (exists fields,
     @Patient.validate reference (dict_set "name" JNull nameless_body) =
     inr (ValidationError fields)).
Proof.
  split.
  - apply (proj1 (@name_city_any_string reference nameless_body)
             (Patient.mk "P003" "" "" 35 Other (of_hundredths 170) (of_Z 65))).
    vm_compute. reflexivity.
  - apply (proj1 (proj2 (@name_city_any_string reference
                           (dict_set "name" JNull nameless_body)))).
    left. intros s. vm_compute. discriminate.
Defined.

(** C3 as stated fails: a body whose name and city are the empty string
    is accepted by the model, whatever the parser of numeric strings is,
    and the request creates the patient. *)
Lemma empty_name_and_city_accepted :
  dict_get "name" nameless_body = Some (JStr "") /\
  dict_get "city" nameless_body = Some (JStr "") /\
  (forall lib : Library,
     exists p, @Patient.validate lib nameless_body = inl p /\
               Patient.name p = "" /\ Patient.city p = "") /\
  fst (@post_create reference nameless_body (Json [])) =
  ret (JSONResponse 201 "Patient created successfully").
Proof.
  split; [reflexivity|]. split; [reflexivity|]. split.
  - intros lib. eexists. split; [vm_compute; reflexivity|]. split; reflexivity.
  - vm_compute. reflexivity.
Qed.

(** ** Update *)

Lemma dict_get_app (V : Type) (k : string) (a b : dict V) :
  dict_get k (a ++ b) =
  match dict_get k a with Some v => Some v | None => dict_get k b end.
Proof.
  induction a as [|[k0 v0] a IH]; simpl; auto.
  now destruct (String.eqb k k0).
Qed.

Lemma dict_get_dump_field (A : Type) (k k' : string) (to_json : A -> jval)
  (f : field A) :
  dict_get k' (PatientUpdate.dump_field k to_json f) =
  if String.eqb k' k then field_json to_json f else None.
Proof.
  destruct f as [|[v|]]; simpl; now destruct (String.eqb k' k).
Qed.

Section UpdateMerge.
Context {lib : Library}.
Variables (patient_id : string) (u : PatientUpdate.t) (old : record).

Let upd := PatientUpdate.model_dump_exclude_unset u.
Let m := merged_info patient_id u old.

Ltac by_key k :=
  repeat match goal with
    | |- context [String.eqb k ?c] =>
        destruct (String.eqb_spec k c) as [->|?]; simpl
    end.

Ltac by_field :=
  repeat match goal with
    | |- context [field_json ?j ?f] => destruct f as [|[?|]]; simpl
    end.

(** Under every key but the id, the merged dictionary has the value of
    the request when the request has the key and the stored value
    otherwise. *)
Lemma dict_get_merged (k : string) :
  k <> "id" ->
  dict_get k m =
  match dict_get k upd with Some v => Some v | None => dict_get k old end.
Proof.
  intros Hid. unfold m. rewrite dict_get_merged_info.
  destruct (String.eqb_spec k "id"); [contradiction|].
  rewrite dict_get_merge.
  unfold upd, PatientUpdate.model_dump_exclude_unset, patched.
  rewrite !dict_get_app, !dict_get_dump_field.
  by_key k; by_field; reflexivity.
Qed.

(** The request has values only under the six fields of the update
    model, each [None] or of the native type of the field. *)
Lemma dict_get_upd (k : string) (v : jval) :
  dict_get k upd = Some v ->
  In k ["name"; "city"; "age"; "gender"; "height"; "weight"] /\
  (v = JNull \/ native_type k v = true).
Proof.
  unfold upd, PatientUpdate.model_dump_exclude_unset.
  rewrite !dict_get_app, !dict_get_dump_field.
  by_key k; by_field;
    try discriminate; intros [= <-]; simpl; auto 10.
Qed.

End UpdateMerge.

(** C4, as the code has it.  [update_patient] on an id that is not in
    the store raises 404 and saves nothing.  On an id that is in the
    store, the dictionary given to the model is the stored record with
    exactly the fields of the request written over it (and the id put
    in), and the model validates every field of it, changed or not.  When
    the model rejects it, the validation error is raised and nothing is
    saved.  When the model accepts it and the bmi is computed, the
    request is answered with 200 and the record saved under the id is the
    dump of the accepted patient without the id: it has every value of
    the request; for a field that the request leaves out it has the
    stored value as the model validates and dumps it, which is the stored
    value itself when that has the JSON type of the field, and the float
    of the same value when an integer is stored for the height or the
    weight; and it has the bmi and verdict computed from the height and
    weight of the accepted patient. *)
Theorem update_patient_merge {lib : Library} (patient_id : string)
  (patient_update : PatientUpdate.t) (file : store) :
  match dict_get patient_id file with
  | None =>
      update_patient patient_id patient_update (Json file) =
      (raise (HTTPException 404 "Patient not found"), Json file)
  | Some old =>
      let upd := PatientUpdate.model_dump_exclude_unset patient_update in
      let m := merged_info patient_id patient_update old in
      merges patient_id patient_update old m /\
      match Patient.validate m with
      | inr e =>
          update_patient patient_id patient_update (Json file) =
          (inr e, Json file)
      | inl p =>
          validated_from m p /\
          forall b, Patient.bmi p = inl b ->
            let r := stored_record p b in
            update_patient patient_id patient_update (Json file) =
            (ret (JSONResponse 200 "Patient updated successfully"),
             Json (dict_set patient_id r file)) /\
            dict_get patient_id (dict_set patient_id r file) = Some r /\
            dict_get "id" r = None /\
            dict_get "bmi" r = Some (JFloat b) /\
            dict_get "verdict" r = Some (JStr (Patient.classify b)) /\
            (forall k v, dict_get k upd = Some v -> dict_get k r = Some v) /\
            (forall k v,
               dict_get k upd = None ->
               dict_get k old = Some v ->
               native_type k v = true ->
               dict_get k r = Some v) /\
            (forall k z,
               In k ["height"; "weight"] ->
               dict_get k upd = None ->
               dict_get k old = Some (JInt z) ->
               dict_get k r = Some (JFloat (of_Z z)))
      end
  end.
Proof.
  destruct (dict_get patient_id file) as [old|] eqn:Hg.
  2:{ now apply update_patient_absent. }
  cbv zeta. split; [apply merged_info_merges|].
  destruct (Patient.validate (merged_info patient_id patient_update old))
    as [p|e] eqn:Hv.
  2:{ now apply update_patient_rejected with old. }
  pose proof (proj1 (validate_accepts _ _) Hv) as Hfrom.
  split; [exact Hfrom|].
  intros b Hb.
  split; [now apply update_patient_stored with old|].
  split; [apply dict_get_set_same|].
  do 3 (split; [reflexivity|]).
  split; [|split].
  - intros k v Hk.
    destruct (dict_get_upd _ _ Hk) as [Hin Hty].
    assert (Hid : k <> "id")
      by (intros ->; simpl in Hin; intuition discriminate).
    pose proof (dict_get_merged patient_id patient_update old Hid) as Hm.
    rewrite Hk in Hm.
    destruct Hty as [->|Hty].
    + now apply (validated_not_null Hfrom) in Hm.
    + now apply validated_native with (merged_info patient_id patient_update old).
  - intros k v Hk Hold Hty.
    assert (Hid : k <> "id") by (intros ->; destruct v; discriminate).
    pose proof (dict_get_merged patient_id patient_update old Hid) as Hm.
    rewrite Hk, Hold in Hm.
    now apply validated_native with (merged_info patient_id patient_update old).
  - intros k z Hin Hk Hold.
    assert (Hid : k <> "id")
      by (intros ->; simpl in Hin; intuition discriminate).
    pose proof (dict_get_merged patient_id patient_update old Hid) as Hm.
    rewrite Hk, Hold in Hm.
    destruct Hfrom as (_ & _ & _ & _ & _ & Hh & Hw).
    simpl in Hin. destruct Hin as [<-|[<-|[]]].
    + rewrite (required_get _ _ _ Hm) in Hh.
      unfold validate_positive, lax_float, int_as_float in Hh.
      destruct (is_infinite (of_Z z)); [discriminate|].
      destruct (gtb (of_Z z) fzero); [|discriminate].
      simpl. congruence.
    + rewrite (required_get _ _ _ Hm) in Hw.
      unfold validate_positive, lax_float, int_as_float in Hw.
      destruct (is_infinite (of_Z z)); [discriminate|].
      destruct (gtb (of_Z z) fzero); [|discriminate].
      simpl. congruence.
Qed.

Lemma update_patient_merge_witness :
  @update_patient reference "P001" city_only (Json integer_weight) =
  (ret (JSONResponse 200 "Patient updated successfully"),
   Json [ ("P001", [ ("name", JStr "Ananya"); ("city", JStr "Mumbai");
                     ("age", JInt 28); ("gender", JStr "Female");
                     ("height", JFloat (of_hundredths 165));
                     ("weight", JFloat (of_Z 60));
                     ("bmi", JFloat (of_hundredths 2204));
                     ("verdict", JStr "Normal weight") ]) ]) /\
  @update_patient reference "P009" city_only (Json integer_weight) =
  (raise (HTTPException 404 "Patient not found"), Json integer_weight).
Proof.
  split.
  - pose proof (@update_patient_merge reference "P001" city_only
                  integer_weight) as H.
    set (o := dict_get "P001" integer_weight) in H.
    vm_compute in o. subst o. cbv beta iota zeta in H.
    destruct H as [_ H].
    set (v := Patient.validate _) in H.
    vm_compute in v. subst v. cbv beta iota in H.
    destruct H as [_ H].
    refine (eq_trans (proj1 (H (of_hundredths 2204) _)) _);
      vm_compute; reflexivity.
  - exact (@update_patient_merge reference "P009" city_only integer_weight).
Defined.

(** C4 as stated fails.  The request [null_name], whose name is an
    explicit null, is accepted as an update and written over the stored
    record; the model then rejects the record, and for the id P001, which
    is in the store, nothing is stored.  The request [city_only] leaves
    the weight out, and the weight stored for P001, the integer 60, is
    saved back as the float 60.0.  And on a store whose record for P001
    lacks the city, the request [heavier], which sets the weight only, is
    refused with a validation error, and nothing is stored. *)
Lemma update_rewrites_or_refuses :
  (forall lib : Library,
     dict_in "P001" one_patient = true /\
     dict_get "name" (PatientUpdate.model_dump_exclude_unset null_name) =
     Some JNull /\
     @update_patient lib "P001" null_name (Json one_patient) =
     (inr (ValidationError ["name"]), Json one_patient)) /\
  (exists old new,
     dict_get "P001" integer_weight = Some old /\
     @update_patient reference "P001" city_only (Json integer_weight) =
     (ret (JSONResponse 200 "Patient updated successfully"),
      Json [("P001", new)]) /\
     dict_get "weight" (PatientUpdate.model_dump_exclude_unset city_only) =
     None /\
     dict_get "weight" old = Some (JInt 60) /\
     dict_get "weight" new = Some (JFloat (of_Z 60)) /\
     dict_get "weight" new <> dict_get "weight" old) /\
  (forall lib : Library,
     dict_in "P001" no_city = true /\
     @update_patient lib "P001" heavier (Json no_city) =
     (inr (ValidationError ["city"]), Json no_city)).
Proof.
  split; [intros lib; repeat split|].
  split.
  - exists [ ("name", JStr "Ananya"); ("city", JStr "Pune");
             ("age", JInt 28); ("gender", JStr "Female");
             ("height", JFloat (of_hundredths 165));
             ("weight", JInt 60) ].
    exists [ ("name", JStr "Ananya"); ("city", JStr "Mumbai");
             ("age", JInt 28); ("gender", JStr "Female");
             ("height", JFloat (of_hundredths 165));
             ("weight", JFloat (of_Z 60));
             ("bmi", JFloat (of_hundredths 2204));
             ("verdict", JStr "Normal weight") ].
    split; [reflexivity|].
    split; [vm_compute; reflexivity|].
    split; [reflexivity|]. split; [reflexivity|].
    split; [reflexivity|].
    vm_compute. discriminate.
  - intros lib. split; reflexivity.
Qed.

(** ** Body mass index and verdict *)

Section Thresholds.

Ltac float_cases b :=
  destruct b as [s|s| |s m e];
  unfold leb, ltb, SFleb, SFltb, SFcompare; simpl;
  try destruct s; simpl; try congruence.

(** Above a constant is not below a smaller constant of the same
    exponent. *)
Lemma leb_not_ltb (m1 m2 : positive) (e0 : Z) (b : float) :
  (m1 <= m2)%positive ->
  leb (S754_finite false m2 e0) b = true ->
  ltb b (S754_finite false m1 e0) = false.
Proof.
  intros Hm. float_cases b.
  rewrite !Pos.compare_cont_spec. simpl.
  destruct (Z.compare_spec e0 e); destruct (Z.compare_spec e e0);
    try lia; try congruence.
  destruct (Pos.compare_spec m2 m); destruct (Pos.compare_spec m m1);
    simpl; try lia; congruence.
Qed.

(** A float that is not NaN and not below a constant is at or above
    it. *)
Lemma not_ltb_leb (m0 : positive) (e0 : Z) (b : float) :
  is_nan b = false ->
  ltb b (S754_finite false m0 e0) = false ->
  leb (S754_finite false m0 e0) b = true.
Proof.
  float_cases b.
  rewrite !Pos.compare_cont_spec. simpl. intros _.
  destruct (Z.compare_spec e0 e); destruct (Z.compare_spec e e0);
    try lia; try congruence.
  destruct (Pos.compare_spec m0 m); destruct (Pos.compare_spec m m0);
    simpl; try lia; congruence.
Qed.

End Thresholds.

Lemma c18_5_eq : c18_5 = S754_finite false 5207287069147136 (-48).
Proof. reflexivity. Qed.

Lemma c25_eq : c25 = S754_finite false 7036874417766400 (-48).
Proof. reflexivity. Qed.

Lemma c30_eq : c30 = S754_finite false 8444249301319680 (-48).
Proof. reflexivity. Qed.

Lemma bmi_inv {lib : Library} (p : Patient.t) (b : float) :
  Patient.bmi p = inl b ->
  exists h2,
    pow2 (Patient.height p) = inl h2 /\ is_zero h2 = false /\
    b = round2 (div (Patient.weight p) h2).
Proof.
  unfold Patient.bmi, truediv.
  destruct (pow2 (Patient.height p)) as [h2|e]; simpl; [|discriminate].
  destruct (is_zero h2) eqn:Hz; simpl; [discriminate|].
  intros [= <-]. now exists h2.
Qed.

Lemma bmi_computed {lib : Library} (p : Patient.t) (h2 : float) :
  pow2 (Patient.height p) = inl h2 ->
  is_zero h2 = false ->
  Patient.bmi p = inl (round2 (div (Patient.weight p) h2)).
Proof.
  intros Hp Hz. unfold Patient.bmi, truediv. rewrite Hp. simpl.
  now rewrite Hz.
Qed.

(** The square of the height 1.0 is 1.0, whatever the library. *)
Lemma pow2_one {lib : Library} : pow2 (of_Z 1) = inl one.
Proof. reflexivity. Qed.

(** C2, at a patient whose bmi and verdict the code does not compute.  The
    body [ravi_body] is accepted by the model as the patient [ravi], whose
    height, [1e-200], and weight, 70, are positive; the square of the
    height is zero, and reading the bmi of [ravi], and so its verdict and
    its dump, raises [ZeroDivisionError]. *)
Theorem bmi_zero_division {lib : Library} :
  Patient.validate ravi_body = inl ravi /\
  gtb (Patient.height ravi) fzero = true /\
  gtb (Patient.weight ravi) fzero = true /\
  pow2 (Patient.height ravi) = inl fzero /\
  Patient.bmi ravi = inr (ArithmeticError ZeroDivisionError) /\
  Patient.verdict ravi = inr (ArithmeticError ZeroDivisionError) /\
  Patient.model_dump_all ravi = inr (ArithmeticError ZeroDivisionError).
Proof.
  pose proof bmi_ravi as Hb.
  split; [reflexivity|]. split; [reflexivity|]. split; [reflexivity|].
  split.
  { unfold pow2, ravi, Patient.height.
    assert (Hz : is_zero (pow_2 (SFabs tiny)) = true)
      by (apply pow_2_underflow; reflexivity).
    pose proof (pow_2_sign (SFabs tiny)) as Hs.
    destruct (pow_2 (SFabs tiny)) as [s|s| |s m e]; try discriminate.
    simpl in Hs. now subst s. }
  split; [exact Hb|].
  unfold Patient.model_dump_all, Patient.verdict. rewrite Hb.
  split; reflexivity.
Qed.

(** ** [sorted] is a stable sort *)

Section SortedFacts.
Context {lib : Library}.
Variables (A K : Type).
Variable key : A -> K.
Variable lt : K -> K -> bool.

(** The keys on which [<] is a strict weak order. *)
Variable ok : K -> Prop.
Hypothesis lt_asym :
  forall a b, ok a -> ok b -> lt a b = true -> lt b a = false.
Hypothesis not_lt_trans :
  forall a b c, ok a -> ok b -> ok c ->
    lt b a = false -> lt c b = false -> lt c a = false.

(** [same k a]: the key [a] compares equal to [k]. *)
Variable same : K -> K -> bool.
Hypothesis same_not_lt :
  forall k a b, ok a -> ok b ->
    same k a = true -> same k b = true -> lt a b = false.

Lemma sorted_perm (reverse : bool) (l : list A) :
  Permutation l (sorted key lt reverse l).
Proof.
  unfold sorted. destruct reverse; [|apply list_sort_perm].
  rewrite <- Permutation_rev, <- list_sort_perm. apply Permutation_rev.
Qed.

(** Where every key is one on which [<] is an order, [list.sort] is the
    stable sort. *)
Lemma all_ok_strict_weak (l : list A) :
  all_ok key ok l -> strict_weak key lt l.
Proof.
  unfold all_ok. rewrite Forall_forall. intros Hl. split.
  - intros x y Hx Hy. apply lt_asym; auto.
  - intros x y z Hx Hy Hz. apply not_lt_trans; auto.
Qed.

Lemma list_sort_stable_sort (l : list A) :
  all_ok key ok l -> list_sort key lt l = stable_sort key lt l.
Proof. intros Hl. now apply list_sort_ordered, all_ok_strict_weak. Qed.

Lemma all_ok_perm (l l' : list A) :
  Permutation l l' -> all_ok key ok l -> all_ok key ok l'.
Proof. intros Hp. unfold all_ok. now rewrite Hp. Qed.

Lemma insert_ascending (x : A) (l : list A) :
  ok (key x) -> all_ok key ok l ->
  StronglySorted (ascending key lt) l ->
  StronglySorted (ascending key lt) (insert key lt x l).
Proof.
  intros Hx Hl Hs. induction Hs as [|y l Hs IH Hy]; simpl.
  - repeat constructor.
  - inversion Hl as [|? ? Hoky Hokl]; subst.
    destruct (lt (key y) (key x)) eqn:E.
    + constructor; [now apply IH|].
      apply (Permutation_Forall (insert_perm key lt x l)).
      constructor; [|assumption].
      unfold ascending. now apply lt_asym.
    + constructor; [now constructor|].
      constructor; [exact E|].
      rewrite Forall_forall in *. intros z Hz.
      unfold ascending in *.
      apply not_lt_trans with (key y); auto.
  Qed.

Lemma stable_sort_ascending (l : list A) :
  all_ok key ok l -> StronglySorted (ascending key lt) (stable_sort key lt l).
Proof.
  intros Hl. induction Hl as [|x l Hx Hl IH]; simpl; [constructor|].
  apply insert_ascending; auto.
  now apply all_ok_perm with l; [apply stable_sort_perm|].
Qed.

Lemma StronglySorted_snoc (R : A -> A -> Prop) (l : list A) (x : A) :
  StronglySorted R l -> Forall (fun y => R y x) l ->
  StronglySorted R (l ++ [x]).
Proof.
  intros Hs. induction Hs as [|y l Hs IH Hy]; simpl; intros Hx.
  - repeat constructor.
  - inversion Hx; subst. constructor; [auto|].
    apply Forall_app. split; [assumption | now constructor].
Qed.

Lemma StronglySorted_rev (R : A -> A -> Prop) (l : list A) :
  StronglySorted R l -> StronglySorted (fun x y => R y x) (rev l).
Proof.
  intros Hs. induction Hs as [|y l Hs IH Hy]; simpl; [constructor|].
  apply StronglySorted_snoc; [assumption|].
  apply Forall_rev. exact Hy.
Qed.

(** Ascending order without [reverse], descending order with it. *)
Lemma sorted_ordered (reverse : bool) (l : list A) :
  all_ok key ok l ->
  StronglySorted (if reverse then (descending key lt) else (ascending key lt))
    (sorted key lt reverse l).
Proof.
  intros Hl. unfold sorted. destruct reverse.
  - rewrite list_sort_stable_sort by now apply Forall_rev.
    apply (StronglySorted_rev (R := ascending key lt)).
    apply stable_sort_ascending. now apply Forall_rev.
  - rewrite list_sort_stable_sort by assumption.
    now apply stable_sort_ascending.
Qed.

(** The elements of one class of keys are not moved past each other. *)
Lemma insert_stable (k : K) (x : A) (l : list A) :
  ok (key x) -> all_ok key ok l ->
  filter (fun y => same k (key y)) (insert key lt x l) =
  filter (fun y => same k (key y)) (x :: l).
Proof.
  intros Hx Hl. induction Hl as [|y l Hy Hl IH]; simpl; [reflexivity|].
  destruct (lt (key y) (key x)) eqn:E; [|reflexivity].
  simpl. rewrite IH. simpl.
  destruct (same k (key x)) eqn:Ex; destruct (same k (key y)) eqn:Ey;
    try reflexivity.
  rewrite (same_not_lt Hy Hx Ey Ex) in E. discriminate.
Qed.

Lemma stable_sort_stable (k : K) (l : list A) :
  all_ok key ok l ->
  filter (fun y => same k (key y)) (stable_sort key lt l) =
  filter (fun y => same k (key y)) l.
Proof.
  intros Hl. induction Hl as [|x l Hx Hl IH]; simpl; [reflexivity|].
  rewrite insert_stable; auto.
  - simpl. now rewrite IH.
  - now apply all_ok_perm with l; [apply stable_sort_perm|].
Qed.

Lemma filter_rev (f : A -> bool) (l : list A) :
  filter f (rev l) = rev (filter f l).
Proof.
  induction l as [|x l IH]; simpl; [reflexivity|].
  rewrite filter_app, IH. simpl. destruct (f x); simpl; auto using app_nil_r.
Qed.

(** With or without [reverse], the elements whose keys compare equal
    come out in the order in which they went in. *)
Lemma sorted_stable (reverse : bool) (k : K) (l : list A) :
  all_ok key ok l ->
  filter (fun y => same k (key y)) (sorted key lt reverse l) =
  filter (fun y => same k (key y)) l.
Proof.
  intros Hl. unfold sorted. destruct reverse.
  - rewrite list_sort_stable_sort by now apply Forall_rev.
    rewrite filter_rev, stable_sort_stable by now apply Forall_rev.
    now rewrite filter_rev, rev_involutive.
  - rewrite list_sort_stable_sort by assumption.
    now apply stable_sort_stable.
Qed.

End SortedFacts.

(** ** The order of floats *)

Lemma SFcompare_rank (a b : float) :
  is_nan a = false -> is_nan b = false ->
  SFcompare a b = Some (lex3 (rank a) (rank b)).
Proof.
  destruct a as [s1|s1| |s1 m1 e1]; destruct b as [s2|s2| |s2 m2 e2];
    simpl; try discriminate; intros _ _;
    try destruct s1; try destruct s2; simpl; try reflexivity.
  rewrite Z.compare_opp, (Z.compare_antisym e1 e2).
  destruct (e1 ?= e2); reflexivity.
Qed.

Ltac lex_cases :=
  repeat match goal with
    | H : context [Z.compare ?x ?y] |- _ =>
        destruct (Z.compare_spec x y); cbn in H; try discriminate H
    | |- context [Z.compare ?x ?y] =>
        destruct (Z.compare_spec x y); cbn
    end;
  try reflexivity; try congruence; try lia.

Lemma lex3_antisym (a b : Z * Z * Z) : lex3 b a = CompOpp (lex3 a b).
Proof.
  destruct a as [[c1 e1] m1], b as [[c2 e2] m2]. unfold lex3. lex_cases.
Qed.

Lemma lex3_le_trans (a b c : Z * Z * Z) :
  lex3 a b <> Gt -> lex3 b c <> Gt -> lex3 a c <> Gt.
Proof.
  destruct a as [[c1 e1] m1], b as [[c2 e2] m2], c as [[c3 e3] m3].
  unfold lex3. intros H1 H2 H3.
  destruct (Z.compare_spec c1 c2), (Z.compare_spec c2 c3),
    (Z.compare_spec c1 c3); try congruence; try lia;
  destruct (Z.compare_spec e1 e2), (Z.compare_spec e2 e3),
    (Z.compare_spec e1 e3); try congruence; try lia;
  destruct (Z.compare_spec m1 m2), (Z.compare_spec m2 m3),
    (Z.compare_spec m1 m3); try congruence; lia.
Qed.

Lemma lex3_eq_trans (a b k : Z * Z * Z) :
  lex3 a k = Eq -> lex3 b k = Eq -> lex3 a b = Eq.
Proof.
  destruct a as [[c1 e1] m1], b as [[c2 e2] m2], k as [[c3 e3] m3].
  unfold lex3. intros H1 H2.
  destruct (Z.compare_spec c1 c3), (Z.compare_spec c2 c3),
    (Z.compare_spec c1 c2); try congruence; try lia;
  destruct (Z.compare_spec e1 e3), (Z.compare_spec e2 e3),
    (Z.compare_spec e1 e2); try congruence; try lia;
  destruct (Z.compare_spec m1 m3), (Z.compare_spec m2 m3),
    (Z.compare_spec m1 m2); try congruence; lia.
Qed.

Section FloatOrder.
Implicit Types a b c k : float.

Lemma ltb_nan_l a b : is_nan a = true -> ltb a b = false.
Proof. destruct a; try discriminate. reflexivity. Qed.

Lemma ltb_nan_r a b : is_nan b = true -> ltb a b = false.
Proof. destruct b; try discriminate. now destruct a. Qed.

Lemma ltb_rank a b :
  is_nan a = false -> is_nan b = false ->
  ltb a b = match lex3 (rank a) (rank b) with Lt => true | _ => false end.
Proof.
  intros Ha Hb. unfold ltb, SFltb. now rewrite SFcompare_rank.
Qed.

Lemma SFeqb_rank a b :
  SFeqb a b = true ->
  is_nan a = false /\ is_nan b = false /\ lex3 (rank a) (rank b) = Eq.
Proof.
  unfold SFeqb. destruct (is_nan a) eqn:Ha.
  { destruct a; discriminate. }
  destruct (is_nan b) eqn:Hb.
  { destruct b; try discriminate. now destruct a. }
  rewrite SFcompare_rank by assumption.
  destruct (lex3 (rank a) (rank b)); try discriminate. auto.
Qed.

Lemma ltb_asym a b : ltb a b = true -> ltb b a = false.
Proof.
  destruct (is_nan a) eqn:Ha; [now rewrite ltb_nan_l|].
  destruct (is_nan b) eqn:Hb; [now rewrite ltb_nan_r|].
  rewrite !ltb_rank by assumption. rewrite (lex3_antisym (rank a) (rank b)).
  now destruct (lex3 (rank a) (rank b)).
Qed.

Lemma not_ltb_trans a b c :
  is_nan a = false -> is_nan b = false -> is_nan c = false ->
  ltb b a = false -> ltb c b = false -> ltb c a = false.
Proof.
  intros Ha Hb Hc. rewrite !ltb_rank by assumption.
  rewrite (lex3_antisym (rank a) (rank b)), (lex3_antisym (rank b) (rank c)),
    (lex3_antisym (rank a) (rank c)).
  pose proof (@lex3_le_trans (rank a) (rank b) (rank c)) as T.
  destruct (lex3 (rank a) (rank b)), (lex3 (rank b) (rank c)),
    (lex3 (rank a) (rank c)); simpl; intros; try reflexivity;
    try discriminate; exfalso; apply T; congruence.
Qed.

Lemma SFeqb_not_ltb k a b :
  SFeqb a k = true -> SFeqb b k = true -> ltb a b = false.
Proof.
  intros H1 H2.
  destruct (SFeqb_rank _ _ H1) as (Ha & _ & E1).
  destruct (SFeqb_rank _ _ H2) as (Hb & _ & E2).
  rewrite ltb_rank by assumption.
  now rewrite (lex3_eq_trans _ _ _ E1 E2).
Qed.

End FloatOrder.

(** ** Sort: the order of the answer *)

Lemma py_lt_asym (a b : jval) :
  number_key a -> number_key b -> py_lt a b = true -> py_lt b a = false.
Proof.
  intros (x & -> & _) (y & -> & _). simpl. apply ltb_asym.
Qed.

Lemma not_py_lt_trans (a b c : jval) :
  number_key a -> number_key b -> number_key c ->
  py_lt b a = false -> py_lt c b = false -> py_lt c a = false.
Proof.
  intros (x & -> & Hx) (y & -> & Hy) (z & -> & Hz). simpl.
  now apply not_ltb_trans.
Qed.

Lemma key_equal_not_py_lt (k a b : jval) :
  number_key a -> number_key b ->
  key_equal k a = true -> key_equal k b = true -> py_lt a b = false.
Proof.
  intros (x & -> & _) (y & -> & _).
  destruct k as [| | |kk| | |]; simpl; try discriminate.
  apply SFeqb_not_ltb.
Qed.

Section EnrichFacts.
Context {lib : Library}.

Lemma enrich_inv (file : store) (enriched : list record) :
  enrich file = inl enriched -> Forall2 enriched_from file enriched.
Proof.
  revert enriched. induction file as [|[pid info] file IH]; simpl.
  - intros enriched [= <-]. constructor.
  - intros enriched.
    destruct (Patient.validate (dict_set "id" (JStr pid) info))
      as [p|e] eqn:Hv; simpl; [|discriminate].
    destruct (Patient.model_dump [] p) as [d|e] eqn:Hd; simpl; [|discriminate].
    destruct (enrich file) as [rest|e]; simpl; [|discriminate].
    intros [= <-].
    destruct (model_dump_nothing_excluded_inv _ Hd) as (b & Hb & ->).
    assert (Hid : Patient.id p = pid).
    { apply validate_accepts in Hv. destruct Hv as (Hi & _).
      rewrite required_set_same in Hi. simpl in Hi. congruence. }
    constructor; [|now apply IH].
    exists p, b. simpl. rewrite Hid. auto.
Qed.

(** Under a valid [sort_by] an enriched record has a float, which is
    the height, the weight or the bmi of the patient; height and weight
    are positive, hence numbers. *)
Lemma enriched_key (item : string * record) (r : record) (sort_by : string) :
  enriched_from item r ->
  In sort_by ["height"; "weight"; "bmi"] ->
  exists f, sort_key sort_by r = JFloat f /\
            (sort_by <> "bmi" -> is_nan f = false).
Proof.
  intros (p & b & Hv & _ & Hb & ->) Hin.
  apply validate_accepts in Hv.
  destruct Hv as (_ & _ & _ & _ & _ & Hh & Hw).
  unfold required in Hh, Hw.
  destruct (dict_get "height" _) as [vh|]; [|discriminate].
  destruct (dict_get "weight" _) as [vw|]; [|discriminate].
  apply validate_positive_gt in Hh, Hw.
  simpl in Hin. destruct Hin as [<-|[<-|[<-|[]]]].
  - exists (Patient.height p). split; [reflexivity|]. intros _.
    destruct (Patient.height p); try reflexivity. discriminate.
  - exists (Patient.weight p). split; [reflexivity|]. intros _.
    destruct (Patient.weight p); try reflexivity. discriminate.
  - exists b. split; [reflexivity|]. congruence.
Qed.

Lemma enriched_number_keys (file : store) (enriched : list record)
  (sort_by : string) :
  Forall2 enriched_from file enriched ->
  In sort_by ["height"; "weight"] ->
  Forall (fun r => number_key (sort_key sort_by r)) enriched.
Proof.
  intros HF Hin. induction HF as [|item r file enriched Hr HF IH];
    constructor; [|assumption].
  destruct (@enriched_key item r sort_by Hr) as (f & Hf & Hn).
  - simpl in *. tauto.
  - exists f. split; [assumption|]. apply Hn.
    simpl in Hin. destruct Hin as [<-|[<-|[]]]; discriminate.
Qed.

End EnrichFacts.

(** C5, on two stores that the code does not answer in order.  In
    [nan_store] every record is accepted by the model; the second has an
    infinite height and weight, so that its bmi is NaN, and no bmi is
    smaller than the one before it since nothing is smaller than NaN and
    NaN is smaller than nothing: [sort_patients] by bmi in ascending
    order answers with the records in the order of the store, the bmi 10
    before the bmi 5.  In [tiny_store] the record is accepted by the model
    and the square of its height is zero: [sort_patients] raises
    [ZeroDivisionError] whatever the field and the order. *)
Theorem sort_patients_not_ordered {lib : Library} :
  enrich nan_store = inl nan_answer /\
  sort_patients "bmi" "asc" (Json nan_store) =
  (ret (Response 200 (RecordList nan_answer)), Json nan_store) /\
  map (dict_get "id") nan_answer =
  [Some (JStr "A"); Some (JStr "B"); Some (JStr "C")] /\
  map (dict_get "bmi") nan_answer =
  [Some (JFloat (of_Z 10)); Some (JFloat S754_nan); Some (JFloat (of_Z 5))] /\
  ltb (of_Z 5) (of_Z 10) = true /\
  Patient.validate
    (dict_set "id" (JStr "P002")
       [ ("name", JStr "Ravi"); ("city", JStr "Delhi"); ("age", JInt 40);
         ("gender", JStr "Male"); ("height", JFloat tiny);
         ("weight", JInt 70) ]) = inl ravi /\
  forall sort_by order,
    In sort_by ["height"; "weight"; "bmi"] -> In order ["asc"; "desc"] ->
    sort_patients sort_by order (Json tiny_store) =
    (inr (ArithmeticError ZeroDivisionError), Json tiny_store).
Proof.
  assert (He : enrich nan_store = inl nan_answer) by reflexivity.
  split; [exact He|]. split.
  { unfold sort_patients, load_data, ret. simpl negb. cbv iota.
    rewrite He. unfold sorted. simpl String.eqb. cbv iota.
    rewrite list_sort_run; [reflexivity|].
    simpl. auto. }
  split; [reflexivity|]. split; [reflexivity|]. split; [reflexivity|].
  split; [reflexivity|].
  intros sort_by order Hby Hord.
  assert (Eby : str_in sort_by valid_fields = true) by now apply str_in_In.
  assert (Eord : str_in order ["asc"; "desc"] = true) by now apply str_in_In.
  unfold sort_patients, load_data, ret. rewrite Eby, Eord. simpl negb.
  cbv iota.
  assert (Ht : enrich tiny_store = inr (ArithmeticError ZeroDivisionError)).
  { unfold enrich, tiny_store.
    change (Patient.validate _) with (@inl Patient.t exn ravi).
    unfold bind, Patient.model_dump, Patient.model_dump_all.
    now rewrite bmi_ravi. }
  now rewrite Ht.
Qed.

(** On [three_patients] the two records of equal bmi are in the order of
    the store in both directions. *)
Example sort_three_by_bmi :
  ids_of (@sort_patients reference "bmi" "asc" (Json three_patients)) =
  [Some (JStr "P001"); Some (JStr "P002"); Some (JStr "P003")] /\
  ids_of (@sort_patients reference "bmi" "desc" (Json three_patients)) =
  [Some (JStr "P003"); Some (JStr "P001"); Some (JStr "P002")].
Proof. vm_compute. split; reflexivity. Qed.

(** * Further properties of the handlers *)

(** ** What reads and failures leave alone *)

(** X1: the handlers behind the GET routes never save: after [hello],
    [about], [view], [view_patient] and [sort_patients] the file is as it
    was, whatever is on disk, whatever the parameters and whether the
    request is answered or raises. *)
Theorem read_handlers_keep_file {lib : Library} (file : disk) :
  snd (hello file) = file /\
  snd (about file) = file /\
  snd (view file) = file /\
  (forall patient_id, snd (view_patient patient_id file) = file) /\
  (forall sort_by order, snd (sort_patients sort_by order file) = file).
Proof.
  split; [reflexivity|]. split; [reflexivity|].
  split; [now destruct file|]. split.
  - intros patient_id. unfold view_patient.
    destruct file as [| |data]; [reflexivity .. |].
    unfold load_data, ret.
    now destruct (dict_get patient_id data).
  - intros sort_by order. unfold sort_patients.
    destruct file as [| |data]; [reflexivity .. |].
    unfold load_data, ret.
    destruct (negb (str_in sort_by valid_fields)); [reflexivity|].
    destruct (negb (str_in order ["asc"; "desc"])); [reflexivity|].
    now destruct (enrich data).
Qed.

Lemma create_patient_raises_keeps {lib : Library} (patient : Patient.t)
  (file : disk) (e : exn) :
  fst (create_patient patient file) = inr e ->
  snd (create_patient patient file) = file.
Proof.
  unfold create_patient.
  destruct file as [| |data]; [reflexivity .. |].
  unfold load_data, save_data, ret.
  destruct (dict_in (Patient.id patient) data); [reflexivity|].
  destruct (Patient.model_dump ["id"] patient); [discriminate | reflexivity].
Qed.

Lemma update_patient_raises_keeps {lib : Library} (patient_id : string)
  (u : PatientUpdate.t) (file : disk) (e : exn) :
  fst (update_patient patient_id u file) = inr e ->
  snd (update_patient patient_id u file) = file.
Proof.
  unfold update_patient.
  destruct file as [| |data]; [reflexivity .. |].
  unfold load_data, save_data, ret.
  destruct (dict_get patient_id data); [|reflexivity].
  destruct (Patient.validate _) as [p|]; [|reflexivity].
  destruct (Patient.model_dump ["id"] p); [discriminate | reflexivity].
Qed.

Lemma delete_patient_inv (patient_id : string) (file file' : store)
  (resp : response) :
  delete_patient patient_id (Json file) = (inl resp, Json file') ->
  dict_in patient_id file = true /\ file' = dict_del patient_id file.
Proof.
  destruct (dict_in patient_id file) eqn:Hin.
  - rewrite (delete_patient_present _ _ Hin). intros [= _ <-]. auto.
  - rewrite (delete_patient_absent _ _ Hin). discriminate.
Qed.

(** X2: a write request that raises saves nothing: whenever
    [create_patient], the validation in front of it, [update_patient] or
    [delete_patient] ends in an exception, the file is as it was,
    whatever is on disk. *)
Theorem exceptions_save_nothing {lib : Library} (file : disk) (e : exn) :
  (forall patient,
     fst (create_patient patient file) = inr e ->
     snd (create_patient patient file) = file) /\
  (forall body,
     fst (post_create body file) = inr e ->
     snd (post_create body file) = file) /\
  (forall patient_id patient_update,
     fst (update_patient patient_id patient_update file) = inr e ->
     snd (update_patient patient_id patient_update file) = file) /\
  (forall patient_id,
     fst (delete_patient patient_id file) = inr e ->
     snd (delete_patient patient_id file) = file).
Proof.
  split; [|split; [|split]].
  - intros patient. apply create_patient_raises_keeps.
  - intros body. unfold post_create.
    destruct (Patient.validate body) as [p|]; [|reflexivity].
    apply create_patient_raises_keeps.
  - intros patient_id u. apply update_patient_raises_keeps.
  - intros patient_id. unfold delete_patient.
    destruct file as [| |data]; [reflexivity .. |].
    unfold load_data, ret.
    destruct (negb (dict_in patient_id data)); [reflexivity | discriminate].
Qed.

Lemma exceptions_save_nothing_witness :
  snd (@create_patient reference ananya (Json ananya_stored)) =
  Json ananya_stored /\
  snd (@update_patient reference "P001" null_name (Json ananya_stored)) =
  Json ananya_stored /\
  snd (delete_patient "P001" Missing) = Missing.
Proof.
  split; [|split].
  - apply (proj1 (@exceptions_save_nothing reference (Json ananya_stored)
                    (HTTPException 400 "Patient with this ID already exists"))
             ananya).
    vm_compute. reflexivity.
  - apply (proj1 (proj2 (proj2 (@exceptions_save_nothing reference
                                  (Json ananya_stored)
                                  (ValidationError ["name"]))))
             "P001" null_name).
    vm_compute. reflexivity.
  - apply (proj2 (proj2 (proj2 (@exceptions_save_nothing reference Missing
                                  FileNotFoundError)))
             "P001").
    reflexivity.
Defined.

(** ** How the requests compose *)

Lemma dict_del_set_fresh (V : Type) (k : string) (v : V) (d : dict V) :
  dict_get k d = None -> dict_del k (dict_set k v d) = d.
Proof.
  unfold dict_del. induction d as [|[k0 v0] d IH]; simpl.
  - now rewrite String.eqb_refl.
  - destruct (String.eqb k k0) eqn:E; [discriminate|].
    intros H. simpl. rewrite E. simpl. now rewrite IH.
Qed.

Lemma dict_set_get_same (V : Type) (k : string) (v : V) (d : dict V) :
  dict_get k d = Some v -> dict_set k v d = d.
Proof.
  induction d as [|[k0 v0] d IH]; simpl; [discriminate|].
  destruct (String.eqb_spec k k0) as [->|Hne].
  - now intros [= ->].
  - intros H. now rewrite IH.
Qed.

(** X3: once [delete_patient] has removed an id, viewing, updating and
    deleting that id all raise 404, and the id is free again: a create
    with it is not refused as a duplicate. *)
Theorem after_delete {lib : Library} (patient_id : string)
  (file file' : store) (resp : response) :
  delete_patient patient_id (Json file) = (inl resp, Json file') ->
  view_patient patient_id (Json file') =
  (raise (HTTPException 404 "Patient not found"), Json file') /\
  delete_patient patient_id (Json file') =
  (raise (HTTPException 404 "Patient not found"), Json file') /\
  (forall patient_update,
     update_patient patient_id patient_update (Json file') =
     (raise (HTTPException 404 "Patient not found"), Json file')) /\
  (forall patient b,
     Patient.id patient = patient_id -> Patient.bmi patient = inl b ->
     fst (create_patient patient (Json file')) =
     ret (JSONResponse 201 "Patient created successfully")).
Proof.
  intros H. destruct (delete_patient_inv _ _ H) as [_ ->].
  pose proof (dict_get_del_same patient_id file) as Hg.
  assert (Hin : dict_in patient_id (dict_del patient_id file) = false)
    by now apply dict_notin_get.
  split; [|split; [|split]].
  - unfold view_patient, load_data, ret. now rewrite Hg.
  - now apply delete_patient_absent.
  - intros u. now apply update_patient_absent.
  - intros patient b <- Hb.
    now rewrite (create_patient_fresh _ _ Hin Hb).
Qed.

Lemma after_delete_witness :
  view_patient "P001" (Json []) =
  (raise (HTTPException 404 "Patient not found"), Json []) /\
  fst (@create_patient reference ananya (Json [])) =
  ret (JSONResponse 201 "Patient created successfully").
Proof.
  pose proof (@after_delete reference "P001" ananya_stored []
                (JSONResponse 200 "Patient deleted successfully") eq_refl)
    as (H1 & _ & _ & H4).
  split; [exact H1|].
  apply (H4 ananya (of_hundredths 2204)); reflexivity.
Defined.

(** X4: after a successful create, a second create with the same id is
    refused with 400, whatever the rest of its payload, and the store
    keeps the first record. *)
Theorem create_twice_conflicts {lib : Library} (patient : Patient.t)
  (file file' : store) (resp : response) :
  create_patient patient (Json file) = (inl resp, Json file') ->
  forall again,
    Patient.id again = Patient.id patient ->
    create_patient again (Json file') =
    (raise (HTTPException 400 "Patient with this ID already exists"),
     Json file').
Proof.
  intros H again Hid.
  destruct (create_patient_inv _ _ H) as (b & _ & _ & _ & ->).
  apply create_patient_duplicate. rewrite Hid.
  apply dict_in_get. eexists. apply dict_get_set_same.
Qed.

Lemma create_twice_conflicts_witness :
  @create_patient reference (with_id "P001" ravi) (Json ananya_stored) =
  (raise (HTTPException 400 "Patient with this ID already exists"),
   Json ananya_stored).
Proof.
  apply (@create_twice_conflicts reference ananya [] ananya_stored
           (JSONResponse 201 "Patient created successfully"));
    reflexivity.
Defined.

(** X5: deleting a patient right after creating it gives back the store
    as it was before the create, entry for entry and in the same
    order. *)
Theorem create_then_delete {lib : Library} (patient : Patient.t)
  (file file' : store) (resp : response) :
  create_patient patient (Json file) = (inl resp, Json file') ->
  delete_patient (Patient.id patient) (Json file') =
  (ret (JSONResponse 200 "Patient deleted successfully"), Json file).
Proof.
  intros H.
  destruct (create_patient_inv _ _ H) as (b & Hin & _ & _ & ->).
  rewrite delete_patient_present.
  - now rewrite dict_del_set_fresh by now apply dict_notin_get.
  - apply dict_in_get. eexists. apply dict_get_set_same.
Qed.

Lemma create_then_delete_witness :
  delete_patient "P001" (Json ananya_stored) =
  (ret (JSONResponse 200 "Patient deleted successfully"), Json []).
Proof.
  apply (@create_then_delete reference ananya [] ananya_stored
           (JSONResponse 201 "Patient created successfully")).
  reflexivity.
Defined.

(** ** What the model accepts *)

Section FieldFacts.
Context {lib : Library}.

Ltac seven_fields d :=
  destruct (required validate_str "id" d) as [i|] eqn:Ei;
  destruct (required validate_str "name" d) as [n|] eqn:En;
  destruct (required validate_str "city" d) as [c|] eqn:Ec;
  destruct (required validate_age "age" d) as [a|] eqn:Ea;
  destruct (required validate_gender "gender" d) as [g|] eqn:Eg;
  destruct (required validate_positive "height" d) as [h|] eqn:Eh;
  destruct (required validate_positive "weight" d) as [w|] eqn:Ew.

(** A field that the model does not accept is named in the error. *)
Lemma validate_names_failed (d : record) (k : string) :
  In k patient_fields ->
  field_ok k d = false ->
  exists fields,
    Patient.validate d = inr (ValidationError fields) /\ In k fields.
Proof.
  intros Hin Hok. unfold Patient.validate, field_ok, raise, ret in *.
  simpl in Hin.
  seven_fields d;
    repeat (destruct Hin as [<-|Hin]; [simpl in Hok; try discriminate Hok|]);
    try contradiction;
    (eexists; split; [reflexivity | simpl; tauto]).
Qed.

Lemma field_ok_missing (d : record) (k : string) :
  In k patient_fields ->
  dict_get k d = None \/ dict_get k d = Some JNull ->
  field_ok k d = false.
Proof.
  intros Hin Hk. unfold field_ok, required. simpl in Hin.
  repeat (destruct Hin as [<-|Hin]; [simpl; destruct Hk as [->| ->]; reflexivity|]).
  contradiction.
Qed.

(** The validation reads the seven fields and nothing else. *)
Lemma validate_ext (d d' : record) :
  (forall k, In k patient_fields -> dict_get k d = dict_get k d') ->
  Patient.validate d = Patient.validate d'.
Proof.
  intros H. unfold Patient.validate, required.
  rewrite !(H _) by (simpl; tauto). reflexivity.
Qed.

(** The fields of an accepted patient meet the constraints. *)
Lemma validated_valid (d : record) (p : Patient.t) :
  Patient.validate d = inl p -> valid_patient p.
Proof.
  intros H. apply validate_accepts in H.
  destruct H as (_ & _ & _ & Ha & _ & Hh & Hw). unfold required in *.
  destruct (dict_get "age" d) as [va|]; [|discriminate].
  destruct (dict_get "height" d) as [vh|]; [|discriminate].
  destruct (dict_get "weight" d) as [vw|]; [|discriminate].
  repeat split;
    eauto using validate_positive_gt;
    now apply validate_age_range in Ha.
Qed.

(** A dictionary that has, under every field, the value that the model
    dumps for a patient meeting the constraints is accepted as that
    patient. *)
Lemma validate_dumped (m : record) (p : Patient.t) :
  valid_patient p ->
  dict_get "id" m = Some (JStr (Patient.id p)) ->
  (forall k, In k update_fields ->
     dict_get k m = dict_get k (stored_record p fzero)) ->
  Patient.validate m = inl p.
Proof.
  intros (Ha & Hh & Hw) Hid Hk. apply validate_accepts.
  unfold validated_from, required.
  rewrite Hid, !(Hk _) by (simpl; tauto). simpl.
  unfold validate_age, validate_positive. simpl.
  rewrite Hh, Hw, gender_of_str_gender_str.
  destruct (Z.ltb_spec 0 (Patient.age p)); [|lia].
  destruct (Z.ltb_spec (Patient.age p) 120); [|lia].
  simpl. auto 10.
Qed.

End FieldFacts.

(** X6: a body in which a field of [Patient] is missing or is [null] is
    rejected with a [ValidationError] that names the field, and the
    create request for it saves nothing, whatever is on disk. *)
Theorem missing_field_rejected {lib : Library} (body : record) (k : string)
  (file : disk) :
  In k patient_fields ->
  dict_get k body = None \/ dict_get k body = Some JNull ->
  exists fields,
    In k fields /\
    Patient.validate body = inr (ValidationError fields) /\
    post_create body file = (inr (ValidationError fields), file).
Proof.
  intros Hin Hk.
  destruct (validate_names_failed body Hin (field_ok_missing body Hin Hk))
    as (fields & Hv & Hf).
  exists fields. split; [exact Hf|]. split; [exact Hv|].
  unfold post_create. now rewrite Hv.
Qed.

Lemma missing_field_rejected_witness :
  exists fields,
    In "city" fields /\
    @Patient.validate reference (dict_del "city" ravi_body) =
    inr (ValidationError fields) /\
    @post_create reference (dict_del "city" ravi_body) (Json one_patient) =
    (inr (ValidationError fields), Json one_patient).
Proof.
  apply (@missing_field_rejected reference (dict_del "city" ravi_body) "city"
           (Json one_patient)).
  - simpl. tauto.
  - left. reflexivity.
Defined.

(** X7: keys that are not fields of [Patient] have no effect: a body with
    such a key set to anything is validated, and its create request
    answered, exactly like the body without it. *)
Theorem extra_keys_ignored {lib : Library} (body : record) (k : string)
  (v : jval) :
  ~ In k patient_fields ->
  Patient.validate (dict_set k v body) = Patient.validate body /\
  forall file, post_create (dict_set k v body) file = post_create body file.
Proof.
  intros Hk.
  assert (Hv : Patient.validate (dict_set k v body) = Patient.validate body).
  { apply validate_ext. intros k' Hk'. apply dict_get_set_other.
    intros ->. contradiction. }
  split; [exact Hv|]. intros file. unfold post_create. now rewrite Hv.
Qed.

Lemma extra_keys_ignored_witness :
  @Patient.validate reference (dict_set "bmi" (JStr "stale") nameless_body) =
  @Patient.validate reference nameless_body.
Proof.
  apply (@extra_keys_ignored reference nameless_body "bmi" (JStr "stale")).
  simpl. intros [H|[H|[H|[H|[H|[H|[H|[]]]]]]]]; discriminate.
Defined.

(** X8: every patient that the model accepts, from whatever dictionary,
    has an age strictly between 0 and 120 and a height and a weight that
    are greater than zero, hence not NaN. *)
Theorem accepted_patient_in_range {lib : Library} (d : record) (p : Patient.t) :
  Patient.validate d = inl p ->
  0 < Patient.age p < 120 /\
  gtb (Patient.height p) fzero = true /\
  gtb (Patient.weight p) fzero = true /\
  is_nan (Patient.height p) = false /\
  is_nan (Patient.weight p) = false.
Proof.
  intros H. destruct (validated_valid _ H) as (Ha & Hh & Hw).
  repeat split; try assumption; try lia.
  - destruct (Patient.height p); try reflexivity. discriminate.
  - destruct (Patient.weight p); try reflexivity. discriminate.
Qed.

Lemma accepted_patient_in_range_witness :
  0 < Patient.age ravi < 120 /\
  gtb (Patient.height ravi) fzero = true /\
  gtb (Patient.weight ravi) fzero = true /\
  is_nan (Patient.height ravi) = false /\
  is_nan (Patient.weight ravi) = false.
Proof.
  apply (@accepted_patient_in_range reference ravi_body ravi). reflexivity.
Defined.

(** X9: a JSON number out of range is rejected with an error that names
    its field: an integer age that is 0 or less, or 120 or more, and a
    float height or weight that is not greater than zero (zero, a
    negative number, NaN). *)
Theorem out_of_range_rejected {lib : Library} (body : record) :
  (forall z, dict_get "age" body = Some (JInt z) -> z <= 0 \/ 120 <= z ->
     exists fields,
       Patient.validate body = inr (ValidationError fields) /\
       In "age" fields) /\
  (forall k f, In k ["height"; "weight"] ->
     dict_get k body = Some (JFloat f) -> gtb f fzero = false ->
     exists fields,
       Patient.validate body = inr (ValidationError fields) /\
       In k fields).
Proof.
  split.
  - intros z Hz Hr. apply validate_names_failed; [simpl; tauto|].
    unfold field_ok. simpl. rewrite (required_get _ _ _ Hz).
    unfold validate_age. simpl.
    destruct (Z.ltb_spec 0 z); destruct (Z.ltb_spec z 120);
      try reflexivity. lia.
  - intros k f Hk Hf Hg. apply validate_names_failed.
    + simpl in *. tauto.
    + unfold field_ok. simpl in Hk.
      destruct Hk as [<-|[<-|[]]]; simpl; rewrite (required_get _ _ _ Hf);
        unfold validate_positive; simpl; now rewrite Hg.
Qed.

Lemma out_of_range_rejected_witness :
  (exists fields,
     @Patient.validate reference (dict_set "age" (JInt 120) ravi_body) =
     inr (ValidationError fields) /\ In "age" fields) /\
  (exists fields,
     @Patient.validate reference
       (dict_set "height" (JFloat (S754_zero false)) ravi_body) =
     inr (ValidationError fields) /\ In "height" fields).
Proof.
  split.
  - apply (proj1 (@out_of_range_rejected reference
                    (dict_set "age" (JInt 120) ravi_body)) 120).
    + reflexivity.
    + right. lia.
  - apply (proj2 (@out_of_range_rejected reference
                    (dict_set "height" (JFloat (S754_zero false)) ravi_body))
             "height" (S754_zero false)).
    + simpl. tauto.
    + reflexivity.
    + reflexivity.
Defined.

(** X10: the gender must be one of the three literals, exactly as
    written: an accepted patient has the string of the dictionary, which
    is Male, Female or Other, and any other string is rejected with an
    error that names the field. *)
Theorem gender_literal {lib : Library} (d : record) (s : string) :
  dict_get "gender" d = Some (JStr s) ->
  (forall p, Patient.validate d = inl p ->
     gender_str (Patient.gender p) = s /\
     In s ["Male"; "Female"; "Other"]) /\
  (~ In s ["Male"; "Female"; "Other"] ->
   exists fields,
     Patient.validate d = inr (ValidationError fields) /\
     In "gender" fields).
Proof.
  intros Hg. split.
  - intros p H. apply validate_accepts in H.
    destruct H as (_ & _ & _ & _ & Hp & _).
    rewrite (required_get _ _ _ Hg) in Hp. simpl in Hp.
    apply gender_str_of_str in Hp. split; [exact Hp|].
    rewrite <- Hp. destruct (Patient.gender p); simpl; tauto.
  - intros Hn. apply validate_names_failed; [simpl; tauto|].
    unfold field_ok. simpl. rewrite (required_get _ _ _ Hg). simpl.
    destruct (gender_of_str s) as [g|] eqn:E; [|reflexivity].
    apply gender_str_of_str in E. exfalso. apply Hn.
    rewrite <- E. destruct g; simpl; tauto.
Qed.

Lemma gender_literal_witness :
  exists fields,
    @Patient.validate reference (dict_set "gender" (JStr "male") ravi_body) =
    inr (ValidationError fields) /\ In "gender" fields.
Proof.
  apply (proj2 (@gender_literal reference
                  (dict_set "gender" (JStr "male") ravi_body) "male"
                  eq_refl)).
  simpl. intros [H|[H|[H|[]]]]; discriminate.
Defined.

(** ** Updates *)

Lemma stored_record_field (p : Patient.t) (b b' : float) (k : string) :
  In k update_fields ->
  dict_get k (stored_record p b) = dict_get k (stored_record p b').
Proof.
  intros Hk. simpl in Hk.
  repeat (destruct Hk as [<-|Hk]; [reflexivity|]). contradiction.
Qed.

Lemma update_field_not_id (k : string) : In k update_fields -> k <> "id".
Proof.
  intros Hk ->. simpl in Hk.
  repeat (destruct Hk as [Hk|Hk]; [discriminate|]). contradiction.
Qed.

(** X11: an update cannot blank a field.  When the request gives [null]
    for a field, or leaves out a field that the stored record lacks,
    [update_patient] raises a [ValidationError] that names the field and
    the file stays as it was. *)
Theorem update_needs_every_field {lib : Library} (patient_id : string)
  (patient_update : PatientUpdate.t) (file : store) (old : record)
  (k : string) :
  dict_get patient_id file = Some old ->
  let upd := PatientUpdate.model_dump_exclude_unset patient_update in
  dict_get k upd = Some JNull \/
  (In k update_fields /\ dict_get k upd = None /\ dict_get k old = None) ->
  exists fields,
    In k fields /\
    update_patient patient_id patient_update (Json file) =
    (inr (ValidationError fields), Json file).
Proof.
  intros Hg upd Hk.
  assert (Hin : In k update_fields).
  { destruct Hk as [Hk|[Hk _]]; [|exact Hk].
    now destruct (dict_get_upd _ _ Hk). }
  pose proof (dict_get_merged patient_id patient_update old
                (update_field_not_id Hin)) as Hm.
  assert (Hbad : field_ok k (merged_info patient_id patient_update old) = false).
  { apply field_ok_missing; [simpl in *; tauto|].
    fold upd in Hm. destruct Hk as [Hk|(_ & Hk & Ho)].
    - right. now rewrite Hk in Hm.
    - left. now rewrite Hk, Ho in Hm. }
  destruct (validate_names_failed _ (k := k)
              ltac:(simpl in *; tauto) Hbad) as (fields & Hv & Hf).
  exists fields. split; [exact Hf|].
  now apply update_patient_rejected with old.
Qed.

Lemma update_needs_every_field_witness :
  exists fields,
    In "name" fields /\
    @update_patient reference "P001" null_name (Json one_patient) =
    (inr (ValidationError fields), Json one_patient).
Proof.
  apply (@update_needs_every_field reference "P001" null_name one_patient
           _ "name" eq_refl).
  left. reflexivity.
Defined.

Section ServiceWritten.
Context {lib : Library}.

(** The model accepts a record that the service wrote, with the id put
    in, as the patient it was dumped from. *)
Lemma validate_service_record (patient_id : string) (p : Patient.t)
  (b : float) (m : record) :
  valid_patient p ->
  dict_get "id" m = Some (JStr patient_id) ->
  (forall k, In k update_fields ->
     dict_get k m = dict_get k (stored_record p b)) ->
  Patient.validate m = inl (with_id patient_id p).
Proof.
  intros Hp Hid Hk. apply validate_dumped; [exact Hp | exact Hid |].
  intros k Hin. rewrite (Hk k Hin).
  change (stored_record (with_id patient_id p) fzero)
    with (stored_record p fzero).
  now apply stored_record_field.
Qed.

Lemma enrich_service_store (file : store) :
  service_store file ->
  exists enriched,
    enrich file = inl enriched /\
    List.length enriched = List.length file.
Proof.
  intros Hs. induction Hs as [|[pid r] file (p & b & Hp & Hb & Hr) Hs IH].
  - exists []. split; reflexivity.
  - destruct IH as (rest & He & Hl). simpl in Hr. subst r.
    assert (Hv : Patient.validate
                   (dict_set "id" (JStr pid) (stored_record p b)) =
                 inl (with_id pid p)).
    { apply validate_service_record with b;
        [exact Hp | apply dict_get_set_same |].
      intros k Hk. apply dict_get_set_other.
      exact (update_field_not_id Hk). }
    assert (Hb' : Patient.bmi (with_id pid p) = inl b) by exact Hb.
    cbn [enrich]. rewrite Hv. cbn [bind].
    rewrite (model_dump_nothing_excluded_bmi (with_id pid p) Hb').
    cbn [bind]. rewrite He. cbn [bind ret].
    eexists. split; [reflexivity|]. simpl. now rewrite Hl.
Qed.

End ServiceWritten.

(** X12: an update with the empty body changes nothing: on a record that
    the service wrote, [update_patient] with no field set is answered
    with 200 and saves the store exactly as it was. *)
Theorem empty_update_is_identity {lib : Library} (patient_id : string)
  (file : store) (r : record) :
  dict_get patient_id file = Some r ->
  service_written r ->
  update_patient patient_id nothing_set (Json file) =
  (ret (JSONResponse 200 "Patient updated successfully"), Json file).
Proof.
  intros Hg (p & b & Hp & Hb & ->).
  assert (Hv : Patient.validate
                 (merged_info patient_id nothing_set (stored_record p b)) =
               inl (with_id patient_id p)).
  { apply validate_service_record with b;
      [exact Hp | apply dict_get_set_same |].
    intros k Hk. unfold merged_info.
    change (dict_update (PatientUpdate.model_dump_exclude_unset nothing_set)
              (stored_record p b)) with (stored_record p b).
    apply dict_get_set_other. exact (update_field_not_id Hk). }
  assert (Hb' : Patient.bmi (with_id patient_id p) = inl b) by exact Hb.
  rewrite (update_patient_stored _ _ _ Hg Hv Hb').
  change (stored_record (with_id patient_id p) b) with (stored_record p b).
  now rewrite (dict_set_get_same _ _ Hg).
Qed.

Lemma empty_update_is_identity_witness :
  @update_patient reference "P001" nothing_set (Json ananya_stored) =
  (ret (JSONResponse 200 "Patient updated successfully"),
   Json ananya_stored).
Proof.
  apply (@empty_update_is_identity reference "P001" ananya_stored
           (stored_record ananya (of_hundredths 2204)) eq_refl).
  exists ananya, (of_hundredths 2204).
  split; [|split; reflexivity].
  repeat split; reflexivity.
Defined.

(** X13: updates are idempotent: when [update_patient] has been answered
    normally, the same request again is answered the same way and saves
    the same store. *)
Theorem update_twice {lib : Library} (patient_id : string)
  (patient_update : PatientUpdate.t) (file file' : store) (resp : response) :
  update_patient patient_id patient_update (Json file) =
  (inl resp, Json file') ->
  update_patient patient_id patient_update (Json file') =
  (inl resp, Json file').
Proof.
  intros H.
  destruct (update_patient_inv _ _ _ H)
    as (old & p & b & Hg & Hv & Hb & -> & ->).
  pose proof (proj1 (validate_accepts _ _) Hv) as Hfrom.
  assert (Hid : Patient.id p = patient_id).
  { destruct Hfrom as (Hi & _).
    unfold required, merged_info in Hi.
    rewrite dict_get_set_same in Hi. simpl in Hi. congruence. }
  assert (Hg' : dict_get patient_id
                  (dict_set patient_id (stored_record p b) file) =
                Some (stored_record p b)) by apply dict_get_set_same.
  assert (Hv' : Patient.validate
                  (merged_info patient_id patient_update (stored_record p b)) =
                inl p).
  { replace p with (with_id patient_id p) at 2
      by (destruct p; simpl in Hid; now subst).
    apply validate_service_record with b;
      [exact (validated_valid _ Hv) | apply dict_get_set_same |].
    intros k Hk.
    rewrite (dict_get_merged patient_id patient_update (stored_record p b)
               (update_field_not_id Hk)).
    destruct (dict_get k (PatientUpdate.model_dump_exclude_unset patient_update))
      as [v|] eqn:Hu; [|reflexivity].
    pose proof (dict_get_merged patient_id patient_update old
                  (update_field_not_id Hk)) as Hm.
    rewrite Hu in Hm. symmetry.
    destruct (dict_get_upd _ _ Hu) as [_ [->|Hty]].
    - now apply (validated_not_null Hfrom) in Hm.
    - now apply validated_native
        with (merged_info patient_id patient_update old). }
  rewrite (update_patient_stored _ _ _ Hg' Hv' Hb).
  now rewrite dict_set_set.
Qed.

Lemma update_twice_witness :
  let file' :=
    contents
      (snd (@update_patient reference "P001" move_to_mumbai
              (Json one_patient))) in
  @update_patient reference "P001" move_to_mumbai (Json file') =
  (ret (JSONResponse 200 "Patient updated successfully"), Json file').
Proof.
  apply (@update_twice reference "P001" move_to_mumbai one_patient).
  vm_compute. reflexivity.
Defined.

(** X14: the records of the store stay records that the service wrote:
    from a store all of whose records are dumps of patients meeting the
    constraints, a create request (validated body), an update and a
    delete each lead to such a store again, whether they are answered or
    raise. *)
Theorem service_store_kept {lib : Library} (file : store) :
  service_store file ->
  (forall body,
     service_store (contents (snd (post_create body (Json file))))) /\
  (forall patient_id patient_update,
     service_store
       (contents (snd (update_patient patient_id patient_update
                         (Json file))))) /\
  (forall patient_id,
     service_store (contents (snd (delete_patient patient_id (Json file))))).
Proof.
  intros Hs. split; [|split].
  - intros body. unfold post_create.
    destruct (Patient.validate body) as [p|e] eqn:Hv; [|exact Hs].
    destruct (dict_in (Patient.id p) file) eqn:Hin.
    { now rewrite (create_patient_duplicate _ _ Hin). }
    destruct (Patient.bmi p) as [b|e] eqn:Hb.
    + rewrite (create_patient_fresh _ _ Hin Hb). simpl.
      apply dict_set_Forall; [exact Hs|].
      exists p, b. eauto using validated_valid.
    + now rewrite (create_patient_fresh_raises _ _ Hin Hb).
  - intros patient_id u.
    destruct (dict_get patient_id file) as [old|] eqn:Hg.
    2:{ now rewrite (update_patient_absent _ _ _ Hg). }
    destruct (Patient.validate (merged_info patient_id u old))
      as [p|e] eqn:Hv.
    2:{ now rewrite (update_patient_rejected _ _ _ Hg Hv). }
    destruct (Patient.bmi p) as [b|e] eqn:Hb.
    + rewrite (update_patient_stored _ _ _ Hg Hv Hb). simpl.
      apply dict_set_Forall; [exact Hs|].
      exists p, b. eauto using validated_valid.
    + now rewrite (update_patient_no_bmi _ _ _ Hg Hv Hb).
  - intros patient_id. unfold delete_patient, load_data, save_data, ret.
    destruct (negb (dict_in patient_id file)); [exact Hs|].
    simpl. unfold dict_del, service_store in *.
    rewrite Forall_forall in *. intros kv Hkv.
    apply filter_In in Hkv. now apply Hs.
Qed.

Lemma service_store_kept_witness :
  @service_store reference
    (contents (snd (@post_create reference nameless_body (Json [])))).
Proof.
  apply (proj1 (@service_store_kept reference [] (Forall_nil _))).
Defined.

(** ** Sorting the store *)

(** X15: on a store whose records the service wrote, [sort_patients] with
    valid parameters never raises: it answers 200 with one record for
    every patient of the store. *)
Theorem sort_service_store {lib : Library} (sort_by order : string)
  (file : store) :
  service_store file ->
  In sort_by ["height"; "weight"; "bmi"] ->
  In order ["asc"; "desc"] ->
  exists out,
    sort_patients sort_by order (Json file) =
    (ret (Response 200 (RecordList out)), Json file) /\
    List.length out = List.length file.
Proof.
  intros Hs Hby Hord.
  apply str_in_In in Hby, Hord.
  destruct (enrich_service_store Hs) as (enriched & He & Hl).
  unfold sort_patients, load_data, ret, valid_fields.
  rewrite Hby, Hord, He. simpl.
  eexists. split; [reflexivity|].
  rewrite <- Hl. symmetry. apply Permutation_length, sorted_perm.
Qed.

Lemma sort_service_store_witness :
  exists out,
    @sort_patients reference "height" "asc" (Json ananya_stored) =
    (ret (Response 200 (RecordList out)), Json ananya_stored) /\
    List.length out = List.length ananya_stored.
Proof.
  apply (@sort_service_store reference "height" "asc" ananya_stored).
  - repeat constructor. exists ananya, (of_hundredths 2204).
    split; [|split; reflexivity]. repeat split; reflexivity.
  - simpl. tauto.
  - simpl. tauto.
Defined.

Lemma enriched_ids {lib : Library} (file : store) (enriched : list record) :
  Forall2 enriched_from file enriched ->
  map (dict_get "id") enriched =
  map (fun k => Some (JStr k)) (dict_keys file).
Proof.
  intros HF. induction HF as [|item r file enriched Hr HF IH]; simpl.
  - reflexivity.
  - destruct Hr as (p & b & _ & _ & _ & ->). simpl. now rewrite IH.
Qed.

(** X16: what [sort_patients] answers is always a list with exactly one
    record per key of the store, carrying that key as its id, and every
    record of the list is the full dump of a patient that meets the
    constraints: its bmi and verdict are computed from its own height and
    weight, whatever bmi or verdict the file holds. *)
Theorem sort_answers_fresh_dumps {lib : Library} (sort_by order : string)
  (file : store) (resp : response) :
  fst (sort_patients sort_by order (Json file)) = inl resp ->
  exists out,
    resp = Response 200 (RecordList out) /\
    Permutation (map (dict_get "id") out)
      (map (fun k => Some (JStr k)) (dict_keys file)) /\
    Forall (fun r => exists p b,
              valid_patient p /\ Patient.bmi p = inl b /\
              r = ("id", JStr (Patient.id p)) :: stored_record p b) out.
Proof.
  unfold sort_patients, load_data, ret.
  destruct (negb (str_in sort_by valid_fields)); [discriminate|].
  destruct (negb (str_in order ["asc"; "desc"])); [discriminate|].
  destruct (enrich file) as [enriched|e] eqn:He; [|discriminate].
  simpl. intros [= <-]. eexists. split; [reflexivity|].
  pose proof (enrich_inv _ He) as HF.
  pose proof (sorted_perm (sort_key sort_by) py_lt
                (if String.eqb order "desc" then true else false) enriched)
    as Hperm.
  split.
  - rewrite <- (enriched_ids HF). apply Permutation_map.
    now symmetry.
  - apply (Permutation_Forall Hperm).
    clear Hperm He. induction HF as [|item r f' en Hr HF IH]; constructor;
      [|exact IH].
    destruct Hr as (p & b & Hv & Hid & Hb & ->).
    exists p, b. rewrite Hid. eauto using validated_valid.
Qed.

Lemma sort_answers_fresh_dumps_witness :
  exists out,
    Response 200
      (RecordList
         (@sorted reference _ _ (sort_key "bmi") py_lt true
            (match @enrich reference three_patients with
             | inl l => l
             | inr _ => []
             end))) =
    Response 200 (RecordList out) /\
    Permutation (map (dict_get "id") out)
      (map (fun k => Some (JStr k)) (dict_keys three_patients)) /\
    Forall (fun r => exists p b,
              valid_patient p /\ @Patient.bmi reference p = inl b /\
              r = ("id", JStr (Patient.id p)) :: stored_record p b) out.
Proof.
  apply (@sort_answers_fresh_dumps reference "bmi" "desc" three_patients).
  vm_compute. reflexivity.
Defined.

(** ** The computed fields *)

Section SignFacts.

Lemma gtb_zero_sign (x : float) : gtb x fzero = true -> sign_clear x.
Proof. destruct x as [s|s| |s m e]; try destruct s; simpl; auto; discriminate. Qed.

Lemma pow2_sign {lib : Library} (x h2 : float) :
  pow2 x = inl h2 -> sign_clear h2.
Proof.
  unfold pow2. destruct x as [s|s| |s m e].
  - intros [= <-]. exact (mul_self_sign (S754_zero s)).
  - intros [= <-]. exact (mul_self_sign (S754_infinity s)).
  - intros [= <-]. exact (mul_self_sign S754_nan).
  - destruct (SFeqb _ one); [intros [= <-]; reflexivity|].
    destruct (is_infinite _); [discriminate|].
    intros [= <-]. apply pow_2_sign.
Qed.

Lemma div_sign (x y : float) :
  sign_clear x -> sign_clear y -> sign_clear (div x y).
Proof.
  destruct x as [s|s| |s m e]; destruct y as [s'|s'| |s' m' e'];
    simpl; auto; intros -> ->; simpl; auto.
  destruct (SFdiv_core_binary prec emax (Z.pos m) e (Z.pos m') e')
    as [[mz ez] lz].
  apply binary_round_aux_sign.
Qed.

Lemma round2_sign (x : float) : sign_clear x -> sign_clear (round2 x).
Proof.
  destruct x as [s|s| |s m e]; simpl; auto. intros ->.
  destruct (hundredths m e) as [|n|n]; simpl; auto.
  destruct (SFdiv_core_binary prec emax (Z.pos n) 0 100 0) as [[mz ez] lz].
  apply binary_round_aux_sign.
Qed.

Lemma sign_clear_not_below_zero (x : float) :
  sign_clear x -> ltb x fzero = false.
Proof.
  destruct x as [s|s| |s m e]; simpl; auto; intros ->; reflexivity.
Qed.

End SignFacts.

(** X17: the bmi of a patient with positive height and weight, when it
    is computed, is never below zero and never a negative zero: rounding
    the quotient of two positive floats keeps the sign bit clear. *)
Theorem bmi_not_negative {lib : Library} (p : Patient.t) (b : float) :
  gtb (Patient.height p) fzero = true ->
  gtb (Patient.weight p) fzero = true ->
  Patient.bmi p = inl b ->
  ltb b fzero = false /\ sign_clear b.
Proof.
  intros Hh Hw Hb. destruct (bmi_inv p Hb) as (h2 & Hp & _ & ->).
  assert (Hs : sign_clear (round2 (div (Patient.weight p) h2))).
  { apply round2_sign, div_sign; [now apply gtb_zero_sign|].
    now apply pow2_sign with (Patient.height p). }
  split; [now apply sign_clear_not_below_zero | exact Hs].
Qed.

Lemma bmi_not_negative_witness :
  ltb (of_hundredths 2204) fzero = false /\ sign_clear (of_hundredths 2204).
Proof.
  apply (@bmi_not_negative reference ananya (of_hundredths 2204));
    reflexivity.
Defined.

Lemma leb_negb_ltb (m0 : positive) (e0 : Z) (b : float) :
  is_nan b = false ->
  leb (S754_finite false m0 e0) b = negb (ltb b (S754_finite false m0 e0)).
Proof.
  intros Hn.
  destruct (ltb b (S754_finite false m0 e0)) eqn:E; simpl.
  - destruct (leb (S754_finite false m0 e0) b) eqn:E'; [|reflexivity].
    rewrite (leb_not_ltb _ b (Pos.le_refl m0) E') in E. discriminate.
  - now apply not_ltb_leb.
Qed.

(** X18: the verdict is monotone in the bmi: of two bmi values that are
    numbers, the larger one never gets a lower class (Underweight, Normal
    weight, Overweight, Obese in this order). *)
Theorem verdict_monotone (b1 b2 : float) :
  is_nan b1 = false -> is_nan b2 = false ->
  ltb b2 b1 = false ->
  class_index (Patient.classify b1) <= class_index (Patient.classify b2).
Proof.
  intros H1 H2 Hle.
  assert (Hmono : forall c, is_nan c = false ->
                    ltb b2 c = true -> ltb b1 c = true).
  { intros c Hc Hlt. destruct (ltb b1 c) eqn:E; [reflexivity|].
    rewrite (not_ltb_trans c b1 b2 Hc H1 H2 E Hle) in Hlt. discriminate. }
  pose proof (Hmono c18_5 eq_refl) as M1.
  pose proof (Hmono c25 eq_refl) as M2.
  pose proof (Hmono c30 eq_refl) as M3.
  unfold Patient.classify.
  rewrite c18_5_eq, c25_eq, c30_eq in *.
  rewrite !(leb_negb_ltb _ _ _ H1), !(leb_negb_ltb _ _ _ H2).
  destruct (ltb b1 (S754_finite false 5207287069147136 (-48)));
    destruct (ltb b1 (S754_finite false 7036874417766400 (-48)));
    destruct (ltb b1 (S754_finite false 8444249301319680 (-48)));
    destruct (ltb b2 (S754_finite false 5207287069147136 (-48)));
    destruct (ltb b2 (S754_finite false 7036874417766400 (-48)));
    destruct (ltb b2 (S754_finite false 8444249301319680 (-48)));
    simpl; try (vm_compute; discriminate);
    try (specialize (M1 eq_refl); discriminate);
    try (specialize (M2 eq_refl); discriminate);
    try (specialize (M3 eq_refl); discriminate).
Qed.

Lemma verdict_monotone_witness :
  class_index (Patient.classify c18_5) <= class_index (Patient.classify c30).
Proof.
  apply (@verdict_monotone c18_5 c30); reflexivity.
Defined.

(** X20: whenever the bmi of a patient is computed, the verdict is
    computed too and is the class of that bmi by the half-open
    thresholds: below 18.5 Underweight, from 18.5 and below 25 Normal
    weight, from 25 and below 30 Overweight, from 30 Obese; a bmi that is
    a number is in one of the four ranges.  At the height 1.0, whose
    square is 1.0 whatever the library, the weight 18.5 has the bmi 18.5
    and is Normal weight, and the weight 18.49 is Underweight. *)
Theorem verdict_thresholds {lib : Library} (p : Patient.t) (b : float) :
  Patient.bmi p = inl b ->
  Patient.verdict p = inl (Patient.classify b) /\
  (ltb b c18_5 = true -> Patient.classify b = "Underweight") /\
  (leb c18_5 b = true -> ltb b c25 = true ->
   Patient.classify b = "Normal weight") /\
  (leb c25 b = true -> ltb b c30 = true ->
   Patient.classify b = "Overweight") /\
  (leb c30 b = true -> Patient.classify b = "Obese") /\
  (is_nan b = false ->
   ltb b c18_5 = true \/
   (leb c18_5 b = true /\ ltb b c25 = true) \/
   (leb c25 b = true /\ ltb b c30 = true) \/
   leb c30 b = true) /\
  (forall i n c a g,
     Patient.bmi (Patient.mk i n c a g (of_Z 1) c18_5) = inl c18_5 /\
     Patient.verdict (Patient.mk i n c a g (of_Z 1) c18_5) =
     inl "Normal weight" /\
     Patient.bmi (Patient.mk i n c a g (of_Z 1) (of_hundredths 1849)) =
     inl (of_hundredths 1849) /\
     Patient.verdict (Patient.mk i n c a g (of_Z 1) (of_hundredths 1849)) =
     inl "Underweight").
Proof.
  intros Hb.
  split; [unfold Patient.verdict; now rewrite Hb|].
  unfold Patient.classify. rewrite c18_5_eq, c25_eq, c30_eq.
  split; [intros ->; reflexivity|].
  split.
  { intros H1 H2. rewrite (leb_not_ltb _ b (Pos.le_refl _) H1), H1, H2.
    reflexivity. }
  split.
  { intros H1 H2.
    assert (L1 : ltb b (S754_finite false 5207287069147136 (-48)) = false)
      by (apply leb_not_ltb with (2 := H1); lia).
    assert (L2 : ltb b (S754_finite false 7036874417766400 (-48)) = false)
      by (apply leb_not_ltb with (2 := H1); lia).
    rewrite L1, L2, H1, H2, andb_false_r. reflexivity. }
  split.
  { intros H1.
    assert (L1 : ltb b (S754_finite false 5207287069147136 (-48)) = false)
      by (apply leb_not_ltb with (2 := H1); lia).
    assert (L2 : ltb b (S754_finite false 7036874417766400 (-48)) = false)
      by (apply leb_not_ltb with (2 := H1); lia).
    assert (L3 : ltb b (S754_finite false 8444249301319680 (-48)) = false)
      by (apply leb_not_ltb with (2 := H1); lia).
    rewrite L1, L2, L3, !andb_false_r. reflexivity. }
  split.
  { intros Hnan.
    destruct (ltb b (S754_finite false 5207287069147136 (-48))) eqn:E1;
      [now left | right].
    apply (not_ltb_leb _ _ _ Hnan) in E1.
    destruct (ltb b (S754_finite false 7036874417766400 (-48))) eqn:E2;
      [now left | right].
    apply (not_ltb_leb _ _ _ Hnan) in E2.
    destruct (ltb b (S754_finite false 8444249301319680 (-48))) eqn:E3;
      [now left | right].
    now apply (not_ltb_leb _ _ _ Hnan) in E3. }
  intros i n c a g. repeat split.
Qed.

Lemma verdict_thresholds_witness :
  @Patient.verdict reference ananya = inl "Normal weight" /\
  leb c18_5 (of_hundredths 2204) = true /\
  ltb (of_hundredths 2204) c25 = true.
Proof.
  pose proof (@verdict_thresholds reference ananya (of_hundredths 2204)
                eq_refl) as (Hv & _ & Hn & _).
  split; [|split; reflexivity].
  rewrite Hv. now rewrite (Hn eq_refl eq_refl).
Defined.

(** ** The order of a sorted answer *)

Lemma sort_key_float (sort_by : string) (r : record) (f : float) :
  sort_key sort_by r = JFloat f -> dict_get sort_by r = Some (JFloat f).
Proof.
  unfold sort_key, dict_get_default.
  destruct (dict_get sort_by r); [congruence | discriminate].
Qed.

Lemma not_ltb_leb_floats (f g : float) :
  is_nan f = false -> is_nan g = false ->
  ltb g f = false -> leb f g = true.
Proof.
  intros Hf Hg. rewrite (ltb_rank _ _ Hg Hf).
  unfold leb, SFleb. rewrite (SFcompare_rank _ _ Hf Hg).
  rewrite (lex3_antisym (rank f) (rank g)).
  now destruct (lex3 (rank f) (rank g)).
Qed.

Lemma StronglySorted_weaken (A : Type) (P : A -> Prop) (R R' : A -> A -> Prop)
  (l : list A) :
  (forall x y, P x -> P y -> R x y -> R' x y) ->
  Forall P l -> StronglySorted R l -> StronglySorted R' l.
Proof.
  intros HR HP Hs. induction Hs as [|x l Hs IH Hx]; [constructor|].
  inversion HP as [|? ? Px Pl]; subst.
  constructor; [now apply IH|].
  rewrite Forall_forall in *. intros y Hy. apply HR; auto.
Qed.

Lemma enriched_numbers {lib : Library} (file : store)
  (enriched : list record) (sort_by : string) :
  Forall2 enriched_from file enriched ->
  In sort_by ["height"; "weight"; "bmi"] ->
  (sort_by = "bmi" -> no_nan "bmi" enriched) ->
  Forall (fun r => number_key (sort_key sort_by r)) enriched.
Proof.
  intros HF Hin Hnan.
  destruct (string_dec sort_by "bmi") as [->|Hne].
  - specialize (Hnan eq_refl). unfold no_nan in Hnan.
    induction HF as [|item r file enriched Hr HF IH]; constructor.
    + inversion Hnan as [|? ? Hr' _]; subst.
      destruct (@enriched_key _ item r "bmi" Hr Hin) as (f & Hf & _).
      exists f. split; [exact Hf|]. apply Hr'. now apply sort_key_float.
    + apply IH. now inversion Hnan.
  - apply enriched_number_keys with file; [exact HF|].
    simpl in *. intuition congruence.
Qed.

(** X21: the order of the answer of [sort_patients].  For valid
    parameters, on a store whose records the model accepts and whose
    bmis are computed, and are numbers when the sort is by bmi, the
    request is answered with a permutation of the enriched records in
    which every record has a float under the sort field; for asc the
    value of each record is at most the value of every later record, for
    desc at least; and in both orders the records whose values are equal
    to a given number are in the order of iteration of the store.
    Heights and weights are always numbers. *)
Theorem sort_patients_ordered {lib : Library} (sort_by order : string)
  (file : store) (enriched : list record) :
  In sort_by ["height"; "weight"; "bmi"] ->
  In order ["asc"; "desc"] ->
  enrich file = inl enriched ->
  (sort_by = "bmi" -> no_nan "bmi" enriched) ->
  no_nan sort_by enriched /\
  exists out,
    sort_patients sort_by order (Json file) =
    (ret (Response 200 (RecordList out)), Json file) /\
    Permutation enriched out /\
    StronglySorted (in_order sort_by (String.eqb order "desc")) out /\
    forall k,
      filter (value_is sort_by k) out = filter (value_is sort_by k) enriched.
Proof.
  intros Hby Hord He Hnan.
  assert (Eby : str_in sort_by valid_fields = true) by now apply str_in_In.
  assert (Eord : str_in order ["asc"; "desc"] = true) by now apply str_in_In.
  pose proof (enrich_inv _ He) as HF.
  pose proof (enriched_numbers HF Hby Hnan) as Hnum.
  split.
  { unfold no_nan. rewrite Forall_forall in *. intros r Hr f Hf.
    destruct (Hnum r Hr) as (f' & Hk & Hn).
    apply sort_key_float in Hk. congruence. }
  set (reverse := if String.eqb order "desc" then true else false).
  exists (sorted (sort_key sort_by) py_lt reverse enriched).
  pose proof (sorted_perm (sort_key sort_by) py_lt reverse enriched) as Hperm.
  split; [|split; [exact Hperm|split]].
  - unfold sort_patients, load_data, ret. rewrite Eby, Eord. simpl negb.
    cbv iota. now rewrite He.
  - pose proof (@sorted_ordered _ _ _ (sort_key sort_by) py_lt number_key
                  py_lt_asym not_py_lt_trans reverse enriched Hnum) as Hs.
    apply StronglySorted_weaken
      with (P := fun r => number_key (sort_key sort_by r)) (3 := Hs).
    2:{ exact (Permutation_Forall Hperm Hnum). }
    intros r s (f & Hf & Hfn) (g & Hg & Hgn).
    subst reverse.
    destruct (String.eqb order "desc"); unfold ascending, descending;
      rewrite Hf, Hg; simpl; intros Hlt.
    + exists f, g. repeat split; auto using sort_key_float.
      now apply not_ltb_leb_floats.
    + exists f, g. repeat split; auto using sort_key_float.
      now apply not_ltb_leb_floats.
  - intros k.
    pose proof (@sorted_stable _ _ _ (sort_key sort_by) py_lt number_key
                  py_lt_asym not_py_lt_trans key_equal key_equal_not_py_lt
                  reverse (JFloat k) enriched Hnum) as Hst.
    assert (Hext : forall r,
              key_equal (JFloat k) (sort_key sort_by r) =
              value_is sort_by k r).
    { intros r. unfold value_is, sort_key, dict_get_default.
      destruct (dict_get sort_by r) as [[| | | | | |]|]; reflexivity. }
    rewrite !(filter_ext _ _ Hext) in Hst. exact Hst.
Qed.

Lemma sort_patients_ordered_witness :
  no_nan "bmi" three_enriched /\
  exists out,
    @sort_patients reference "bmi" "desc" (Json three_patients) =
    (ret (Response 200 (RecordList out)), Json three_patients) /\
    Permutation three_enriched out /\
    StronglySorted (in_order "bmi" true) out /\
    (forall k,
       filter (value_is "bmi" k) out =
       filter (value_is "bmi" k) three_enriched) /\
    map (dict_get "id") out =
    [Some (JStr "P003"); Some (JStr "P001"); Some (JStr "P002")].
Proof.
  assert (Hn : no_nan "bmi" three_enriched)
    by (repeat constructor; intros f [= <-]; reflexivity).
  destruct (@sort_patients_ordered reference "bmi" "desc" three_patients
              three_enriched) as (H0 & out & Heq & Hp & Hs & Hst).
  - simpl. tauto.
  - simpl. tauto.
  - vm_compute. reflexivity.
  - intros _. exact Hn.
  - split; [exact H0|]. exists out.
    split; [exact Heq|]. split; [exact Hp|]. split; [exact Hs|].
    split; [exact Hst|].
    assert (Ho : out = match fst (@sort_patients reference "bmi" "desc"
                                    (Json three_patients)) with
                       | inl (Response _ (RecordList l)) => l
                       | _ => []
                       end) by now rewrite Heq.
    rewrite Ho. vm_compute. reflexivity.
Defined.

(** ** The exceptions of each handler *)







(** X22: a file that is missing or is not JSON.  Every handler that loads
    the file then raises the exception of [load_data], before it looks
    at its parameters (a sort with an invalid field raises it too, not
    400), and nothing is written; [hello] and [about] answer as
    always. *)
Theorem load_failure_propagates {lib : Library} (file : disk) :
  file = Missing \/ file = Malformed ->
  exists e,
    is_load_error e /\ load_data file = inr e /\
    view file = (inr e, file) /\
    (forall patient_id, view_patient patient_id file = (inr e, file)) /\
    (forall sort_by order, sort_patients sort_by order file = (inr e, file)) /\
    (forall patient, create_patient patient file = (inr e, file)) /\
    (forall patient_id patient_update,
       update_patient patient_id patient_update file = (inr e, file)) /\
    (forall patient_id, delete_patient patient_id file = (inr e, file)) /\
    (exists resp, hello file = (inl resp, file)) /\
    (exists resp, about file = (inl resp, file)).
Proof.
  intros [-> | ->].
  - exists FileNotFoundError. unfold is_load_error.
    repeat split; eauto; eexists; reflexivity.
  - exists JSONDecodeError. unfold is_load_error.
    repeat split; eauto; eexists; reflexivity.
Qed.

Lemma load_failure_propagates_witness :
  @sort_patients reference "age" "asc" Missing =
  (inr FileNotFoundError, Missing) /\
  view Malformed = (inr JSONDecodeError, Malformed).
Proof.
  split.
  - destruct (@load_failure_propagates reference Missing (or_introl eq_refl))
      as (e & _ & Hl & _ & _ & Hs & _).
    injection Hl as <-. apply Hs.
  - destruct (@load_failure_propagates reference Malformed
                (or_intror eq_refl)) as (e & _ & Hl & Hv & _).
    injection Hl as <-. exact Hv.
Defined.
